(** * StoryMode AI: the profile-extraction and conversation-staging engine

    A shallow embedding of [src/components/ChatInterface.tsx]: the keyword
    classifier [analyzeUserInput], the completeness score
    [calculateCompleteness], the stage selector [getConversationStage] and
    the turn handler [handleSubmit] (profile merge, attachment resolution,
    prompt assembly, streamed reply), followed by the properties of the
    specification that are settled on them.

    Conventions of the embedding.
    - A JavaScript string is represented by its UTF-8 encoding, a Rocq
      [string].  Concatenation, emptiness and containment of an ASCII
      keyword are the same on both representations.
    - A JavaScript number that holds a percentage or a clock reading is a
      [Z]; the one division of the program is carried out in [Q].
    - React state is a record that every handler takes and returns; the
      services the component calls (clock, document extraction, text
      generation) are the fields of an environment record [Env]. *)

From Stdlib Require Import ZArith QArith Qround List Bool Ascii String Lia.
From Stdlib Require Import DecimalString DecimalPos DecimalZ.
Import ListNotations.

Local Open Scope Z_scope.
Local Open Scope string_scope.

(** ** Strings *)

Module Str.

(** Template literals and [+=] on strings: the pieces in order. *)
Definition cat (pieces : list string) : string := String.concat "" pieces.

(** [String.prototype.toLowerCase], one character at a time.  The letters
    [A]..[Z] are the only ASCII characters it changes.  Outside ASCII it
    maps a character to non-ASCII characters, with two exceptions: U+212A
    gives [k], a letter of no keyword, and U+0130 gives [i] followed by
    U+0307, which could only complete a keyword ending in [i], and there is
    none.  The bytes above 127 are therefore left as they are. *)
Definition lowerChar (c : ascii) : ascii :=
  let n := nat_of_ascii c in
  if (65 <=? n)%nat && (n <=? 90)%nat then ascii_of_nat (n + 32) else c.

Fixpoint toLowerCase (s : string) : string :=
  match s with
  | EmptyString => EmptyString
  | String c r => String (lowerChar c) (toLowerCase r)
  end.

(** [s.includes(k)]: [k] starts at some position of [s]. *)
Fixpoint includes (s k : string) : bool :=
  String.prefix k s ||
  match s with
  | EmptyString => false
  | String _ r => includes r k
  end.

(** [Array.prototype.join]. *)
Fixpoint join (sep : string) (l : list string) : string :=
  match l with
  | [] => EmptyString
  | [x] => x
  | x :: r => Str.cat [x; sep; join sep r]
  end.

(** The white space of ECMAScript ([WhiteSpace] and [LineTerminator]), which
    [trim] removes, read on the UTF-8 encoding. *)
Definition isSpace1 (a : ascii) : bool :=
  let n := nat_of_ascii a in
  ((9 <=? n) && (n <=? 13) || (n =? 32))%nat.

(** U+00A0. *)
Definition isSpace2 (a b : ascii) : bool :=
  ((nat_of_ascii a =? 194) && (nat_of_ascii b =? 160))%nat.

(** U+1680, U+2000..U+200A, U+2028, U+2029, U+202F, U+205F, U+3000, U+FEFF. *)
Definition isSpace3 (a b c : ascii) : bool :=
  let x := nat_of_ascii a in
  let y := nat_of_ascii b in
  let z := nat_of_ascii c in
  ((x =? 225) && (y =? 154) && (z =? 128)
   || (x =? 226) && (y =? 128)
      && ((128 <=? z) && (z <=? 138) || (z =? 168) || (z =? 169) || (z =? 175))
   || (x =? 226) && (y =? 129) && (z =? 159)
   || (x =? 227) && (y =? 128) && (z =? 128)
   || (x =? 239) && (y =? 187) && (z =? 191))%nat.

(** [s.trim() === ''], the truth value of [!s.trim()]. *)
Fixpoint isBlank (s : string) : bool :=
  match s with
  | EmptyString => true
  | String a r1 =>
      if isSpace1 a then isBlank r1
      else
        match r1 with
        | EmptyString => false
        | String b r2 =>
            if isSpace2 a b then isBlank r2
            else
              match r2 with
              | EmptyString => false
              | String c r3 => if isSpace3 a b c then isBlank r3 else false
              end
        end
  end.

(** [n.toString()] and the rendering of a number in a template literal. *)
Definition ofNumber (n : Z) : string := NilZero.string_of_int (Z.to_int n).

(** The line feed of the template literals. *)
Definition LF : string := String (ascii_of_nat 10) EmptyString.

(** [k] occurs in [s]. *)
Definition Occurs (k s : string) : Prop :=
  exists pre post : string, s = (pre ++ k ++ post)%string.

End Str.

(** ** The data model *)

(** [interface UserProfile]. *)
Record UserProfile := {
  major : option string;
  colleges : option (list string);
  essayPrompts : option (list string);
  extracurriculars : option (list string);
  classes : option (list string);
  hobbies : option (list string);
  awards : option (list string);
  completeness : Z
}.

(** [Partial<UserProfile>]: every property optional. *)
Module Partial.
Record t := {
  major : option string;
  colleges : option (list string);
  essayPrompts : option (list string);
  extracurriculars : option (list string);
  classes : option (list string);
  hobbies : option (list string);
  awards : option (list string);
  completeness : option Z
}.

(** The object literal [{}]. *)
Definition empty : t :=
  {| major := None; colleges := None; essayPrompts := None;
     extracurriculars := None; classes := None; hobbies := None;
     awards := None; completeness := None |}.
End Partial.

(** [keyof UserProfile]. *)
Inductive Key :=
| Kmajor | Kcolleges | KessayPrompts | Kextracurriculars
| Kclasses | Khobbies | Kawards | Kcompleteness.

(** The values a property of a profile holds. *)
Inductive Value :=
| VString (s : string)
| VArray (l : list string)
| VNumber (n : Z).

(** JavaScript truthiness of a property value; [None] is [undefined]. *)
Definition truthy (v : option Value) : bool :=
  match v with
  | None => false
  | Some (VString s) => negb (String.eqb s "")
  | Some (VArray _) => true
  | Some (VNumber n) => negb (Z.eqb n 0)
  end.

(** [Array.isArray]. *)
Definition isArray (v : option Value) : bool :=
  match v with
  | Some (VArray _) => true
  | _ => false
  end.

(** [profile[key]]. *)
Definition get (k : Key) (p : UserProfile) : option Value :=
  match k with
  | Kmajor => option_map VString (major p)
  | Kcolleges => option_map VArray (colleges p)
  | KessayPrompts => option_map VArray (essayPrompts p)
  | Kextracurriculars => option_map VArray (extracurriculars p)
  | Kclasses => option_map VArray (classes p)
  | Khobbies => option_map VArray (hobbies p)
  | Kawards => option_map VArray (awards p)
  | Kcompleteness => Some (VNumber (completeness p))
  end.

(** [extractedInfo[key]]. *)
Definition getPartial (k : Key) (e : Partial.t) : option Value :=
  match k with
  | Kmajor => option_map VString (Partial.major e)
  | Kcolleges => option_map VArray (Partial.colleges e)
  | KessayPrompts => option_map VArray (Partial.essayPrompts e)
  | Kextracurriculars => option_map VArray (Partial.extracurriculars e)
  | Kclasses => option_map VArray (Partial.classes e)
  | Khobbies => option_map VArray (Partial.hobbies e)
  | Kawards => option_map VArray (Partial.awards e)
  | Kcompleteness => option_map VNumber (Partial.completeness e)
  end.

(** [profile[key] = v].  The interface gives each property one type; a value
    of another type is never assigned, and such an assignment is left
    without effect here. *)
Definition set (k : Key) (v : Value) (p : UserProfile) : UserProfile :=
  match k, v with
  | Kmajor, VString s =>
      {| major := Some s; colleges := colleges p;
         essayPrompts := essayPrompts p;
         extracurriculars := extracurriculars p; classes := classes p;
         hobbies := hobbies p; awards := awards p;
         completeness := completeness p |}
  | Kcolleges, VArray l =>
      {| major := major p; colleges := Some l;
         essayPrompts := essayPrompts p;
         extracurriculars := extracurriculars p; classes := classes p;
         hobbies := hobbies p; awards := awards p;
         completeness := completeness p |}
  | KessayPrompts, VArray l =>
      {| major := major p; colleges := colleges p;
         essayPrompts := Some l;
         extracurriculars := extracurriculars p; classes := classes p;
         hobbies := hobbies p; awards := awards p;
         completeness := completeness p |}
  | Kextracurriculars, VArray l =>
      {| major := major p; colleges := colleges p;
         essayPrompts := essayPrompts p;
         extracurriculars := Some l; classes := classes p;
         hobbies := hobbies p; awards := awards p;
         completeness := completeness p |}
  | Kclasses, VArray l =>
      {| major := major p; colleges := colleges p;
         essayPrompts := essayPrompts p;
         extracurriculars := extracurriculars p; classes := Some l;
         hobbies := hobbies p; awards := awards p;
         completeness := completeness p |}
  | Khobbies, VArray l =>
      {| major := major p; colleges := colleges p;
         essayPrompts := essayPrompts p;
         extracurriculars := extracurriculars p; classes := classes p;
         hobbies := Some l; awards := awards p;
         completeness := completeness p |}
  | Kawards, VArray l =>
      {| major := major p; colleges := colleges p;
         essayPrompts := essayPrompts p;
         extracurriculars := extracurriculars p; classes := classes p;
         hobbies := hobbies p; awards := Some l;
         completeness := completeness p |}
  | Kcompleteness, VNumber n =>
      {| major := major p; colleges := colleges p;
         essayPrompts := essayPrompts p;
         extracurriculars := extracurriculars p; classes := classes p;
         hobbies := hobbies p; awards := awards p;
         completeness := n |}
  | _, _ => p
  end.

(** The conversation stage. *)
Inductive Stage := collection | generation | refinement.

(** ** The field classifier *)

Definition analyzeUserInput (text : string) : Partial.t :=
  let lowerText := Str.toLowerCase text in
  let has := Str.includes lowerText in
  {| Partial.major :=
       if has "major" || has "study" || has "field"
       then Some text else None;
     Partial.colleges :=
       if has "college" || has "university" || has "school"
       then Some [text] else None;
     Partial.essayPrompts :=
       if has "essay" || has "prompt" || has "question"
       then Some [text] else None;
     Partial.extracurriculars :=
       if has "extracurricular" || has "activity" || has "club"
          || has "volunteer" || has "leadership"
       then Some [text] else None;
     Partial.classes :=
       if has "class" || has "course" || has "ap " || has "honors"
          || has "ib "
       then Some [text] else None;
     Partial.hobbies :=
       if has "hobby" || has "interest" || has "passion" || has "enjoy"
          || has "love"
       then Some [text] else None;
     Partial.awards :=
       if has "award" || has "recognition" || has "achievement"
          || has "honor" || has "prize"
       then Some [text] else None;
     Partial.completeness := None |}.

(** ** The profile store *)

(** The seven scored fields, in the order of the source. *)
Definition fields : list Key :=
  [Kmajor; Kcolleges; KessayPrompts; Kextracurriculars;
   Kclasses; Khobbies; Kawards].

(** The predicate of [fields.filter]. *)
Definition isCompleted (profile : UserProfile) (field : Key) : bool :=
  let value := get field profile in
  truthy value &&
  match value with
  | Some (VString s) => (0 <? String.length s)%nat
  | Some (VArray l) => (0 <? List.length l)%nat
  | _ => false
  end.

(** [Math.round]: the nearest integer, a tie going up. *)
Definition Math_round (x : Q) : Z := Qfloor (x + (1 # 2))%Q.

(** The quotient is computed exactly.  The source computes it in binary
    floating point; for the eight possible counts the exact value is at
    least 1/14 away from a tie, far more than the error of two floating
    point operations, so both round to the same integer. *)
Definition calculateCompleteness (profile : UserProfile) : Z :=
  let completedFields := filter (isCompleted profile) fields in
  Math_round
    ((inject_Z (Z.of_nat (List.length completedFields))
      / inject_Z (Z.of_nat (List.length fields))) * 100)%Q.

Definition getConversationStage (profile : UserProfile) : Stage :=
  if Z.ltb (completeness profile) 60 then collection
  else if Z.geb (completeness profile) 60 then generation
  else refinement.

(** [Object.keys(extractedInfo)]: the properties that are present, in the
    order in which [analyzeUserInput] assigns them.  The merge of one key
    neither reads nor writes the property of another. *)
Definition allKeys : list Key :=
  [Kmajor; Kcolleges; KessayPrompts; Kextracurriculars;
   Kclasses; Khobbies; Kawards; Kcompleteness].

Definition isPresent (v : option Value) : bool :=
  match v with Some _ => true | None => false end.

Definition keys (e : Partial.t) : list Key :=
  filter (fun k => isPresent (getPartial k e)) allKeys.

(** [updatedProfile[key] as string[] || []]. *)
Definition arrayOrEmpty (v : option Value) : list string :=
  match v with
  | Some (VArray l) => l
  | _ => []
  end.

(** The body of the [forEach] of the merge, for one key. *)
Definition mergeKey (extractedInfo : Partial.t)
    (updatedProfile : UserProfile) (key : Key) : UserProfile :=
  if truthy (getPartial key extractedInfo) then
    if isArray (getPartial key extractedInfo) then
      set key
        (VArray (arrayOrEmpty (get key updatedProfile)
                 ++ arrayOrEmpty (getPartial key extractedInfo)))
        updatedProfile
    else
      match getPartial key extractedInfo with
      | Some v => set key v updatedProfile
      | None => updatedProfile
      end
  else updatedProfile.

(** Lines 171-188 of the source: copy, merge key by key, rescore. *)
Definition mergeProfile (userProfile : UserProfile)
    (extractedInfo : Partial.t) : UserProfile :=
  let updatedProfile :=
    fold_left (mergeKey extractedInfo) (keys extractedInfo) userProfile in
  set Kcompleteness (VNumber (calculateCompleteness updatedProfile))
    updatedProfile.

(** [useState<UserProfile>({ completeness: 0 })]. *)
Definition initialProfile : UserProfile :=
  {| major := None; colleges := None; essayPrompts := None;
     extracurriculars := None; classes := None; hobbies := None;
     awards := None; completeness := 0 |}.

(** ** Messages, attachments and the state of the component *)

(** A [File]: its name and its content, which only the extraction service
    reads. *)
Record File := { name : string; blob : string }.

Inductive Role := user | assistant.

(** [interface Message].  An id is the decimal rendering of a clock reading;
    a timestamp is kept as the reading. *)
Record Message := {
  id : string;
  role : Role;
  content : string;
  timestamp : Z;
  attachments : option (list File)
}.

(** A notification handed to [toast]. *)
Record Toast := { title : string; description : string; destructive : bool }.

(** The [useState] cells of [ChatInterface], and the toasts raised so far. *)
Record State := {
  messages : list Message;
  input : string;
  isLoading : bool;
  attachedFiles : list File;
  userProfile : UserProfile;
  toasts : list Toast
}.

(** The content of the first message of the conversation. *)
Definition welcome : string :=
  "Welcome to StoryMode AI! 🎓 I'm here to help you craft a compelling narrative for your college applications.

To get started, I'll need to learn about you. Please share:

📚 **Intended Major** - What field do you want to study?
🏫 **Target Colleges** - Which schools are you applying to?
📝 **Essay Prompt** - What specific prompt are you working on?
🏅 **Extracurriculars** - Your activities, leadership roles, volunteering
📖 **Classes** - Relevant coursework that showcases your interests
🎨 **Hobbies** - Personal interests and passions
🏆 **Awards** - Recognition and achievements

You can share this information in any order, and feel free to attach documents like transcripts, activity lists, or draft essays. I'll help you weave these elements into a cohesive narrative that showcases your unique story!"%string.

(** [x || d] where [x] is a string or [undefined]. *)
Definition orElse (x : option string) (d : string) : string :=
  match x with
  | Some s => if String.eqb s "" then d else s
  | None => d
  end.

(** A stage as the template literal prints it. *)
Definition stageName (stage : Stage) : string :=
  match stage with
  | collection => "collection"
  | generation => "generation"
  | refinement => "refinement"
  end.

(** Lines 213-224: the rendered snapshot of the profile. *)
Definition profileContext (updatedProfile : UserProfile)
    (conversationStage : Stage) : string :=
  Str.cat
    [ "
Current User Profile:
- Major: ";
      orElse (major updatedProfile) "Not specified";
      "
- Target Colleges: ";
      orElse (option_map (Str.join ", ") (colleges updatedProfile)) "Not specified";
      "
- Essay Prompts: ";
      orElse (option_map (Str.join "; ") (essayPrompts updatedProfile)) "Not specified";
      "
- Extracurriculars: ";
      orElse (option_map (Str.join ", ") (extracurriculars updatedProfile)) "Not specified";
      "
- Classes: ";
      orElse (option_map (Str.join ", ") (classes updatedProfile)) "Not specified";
      "
- Hobbies: ";
      orElse (option_map (Str.join ", ") (hobbies updatedProfile)) "Not specified";
      "
- Awards: ";
      orElse (option_map (Str.join ", ") (awards updatedProfile)) "Not specified";
      "
- Profile Completeness: ";
      Str.ofNumber (completeness updatedProfile);
      "%
- Conversation Stage: ";
      stageName conversationStage;
      "
" ]%string.

(** Lines 229-241. *)
Definition collectionPrompt (profileContext input attachmentContext : string)
    : string :=
  Str.cat
    [ "You are StoryMode AI, a college application narrative assistant. You're currently in the INFORMATION COLLECTION stage.

";
      profileContext;
      "

Your current task is to:
1. Acknowledge what the user has shared
2. Identify what key information is still missing
3. Ask thoughtful follow-up questions to gather more details
4. Be encouraging and show how their experiences connect

Focus on collecting comprehensive information about their major, target colleges, essay prompts, extracurriculars, classes, hobbies, and awards. Ask specific, engaging questions that help them reflect on their experiences.

User's latest message: ";
      input;
      attachmentContext ]%string.

(** Lines 244-278. *)
Definition generationPrompt (updatedProfile : UserProfile)
    (profileContext input attachmentContext : string) : string :=
  Str.cat
    [ "You are StoryMode AI, a college application narrative assistant. You're now in the NARRATIVE GENERATION stage.

";
      profileContext;
      "

The user has provided sufficient information (";
      Str.ofNumber (completeness updatedProfile);
      "% complete). Now generate a comprehensive narrative roadmap that includes:

## 🎯 NARRATIVE THEMES
Identify 2-3 overarching themes that connect their experiences

## 🔗 CONNECTION MATRIX  
Show how their major, extracurriculars, classes, hobbies, and awards interconnect

## 📚 COLLEGE-SPECIFIC STRATEGIES
For each target college, provide:
- Why they're a perfect fit
- How to position their unique story
- Key points to emphasize

## ✍️ ESSAY ROADMAP
For each essay prompt:
- Suggested approach and angle
- Specific experiences to highlight
- How to weave in their themes

## 💡 BRAINSTORMING IDEAS
- Unique angles they haven't considered
- Stories that showcase growth and impact
- Ways to demonstrate intellectual curiosity

## 🚀 ACTION PLAN
Concrete next steps for their application strategy

Be specific, insightful, and strategic. Help them see the compelling narrative that emerges from their experiences.

User's latest message: ";
      input;
      attachmentContext ]%string.

(** Lines 281-285. *)
Definition refinementPrompt (profileContext input attachmentContext : string)
    : string :=
  Str.cat
    [ "You are StoryMode AI in REFINEMENT mode. Help the user polish and refine their narrative strategy based on their feedback.

";
      profileContext;
      "

User's latest message: ";
      input;
      attachmentContext ]%string.

(** The setters of the state cells. *)
Definition setMessages (f : list Message -> list Message) (s : State) : State :=
  {| messages := f (messages s); input := input s; isLoading := isLoading s;
     attachedFiles := attachedFiles s; userProfile := userProfile s;
     toasts := toasts s |}.

Definition setInput (v : string) (s : State) : State :=
  {| messages := messages s; input := v; isLoading := isLoading s;
     attachedFiles := attachedFiles s; userProfile := userProfile s;
     toasts := toasts s |}.

Definition setIsLoading (v : bool) (s : State) : State :=
  {| messages := messages s; input := input s; isLoading := v;
     attachedFiles := attachedFiles s; userProfile := userProfile s;
     toasts := toasts s |}.

Definition setAttachedFiles (f : list File -> list File) (s : State) : State :=
  {| messages := messages s; input := input s; isLoading := isLoading s;
     attachedFiles := f (attachedFiles s); userProfile := userProfile s;
     toasts := toasts s |}.

Definition setUserProfile (v : UserProfile) (s : State) : State :=
  {| messages := messages s; input := input s; isLoading := isLoading s;
     attachedFiles := attachedFiles s; userProfile := v;
     toasts := toasts s |}.

Definition toast (t : Toast) (s : State) : State :=
  {| messages := messages s; input := input s; isLoading := isLoading s;
     attachedFiles := attachedFiles s; userProfile := userProfile s;
     toasts := (toasts s ++ [t])%list |}.

(** The state at mount; [mounted] is the clock reading of [new Date()]. *)
Definition initialState (mounted : Z) : State :=
  {| messages :=
       [ {| id := "1"; role := assistant; content := welcome;
            timestamp := mounted; attachments := None |} ];
     input := "";
     isLoading := false;
     attachedFiles := [];
     userProfile := initialProfile;
     toasts := [] |}.

(** ** The services a turn calls *)

(** What [blink.ai.streamText] does with a prompt: the chunks it hands to
    the callback, in order, and whether the call is rejected afterwards. *)
Record Stream := { chunks : list string; rejected : bool }.

Record Env := {
  (** [Date.now()] when the user message is built. *)
  userClock : Z;
  (** [Date.now()] when the assistant message is built. *)
  assistantClock : Z;
  (** [blink.data.extractFromBlob]; [None] when it throws. *)
  extractFromBlob : File -> option string;
  (** [blink.ai.streamText] on a prompt. *)
  streamText : string -> Stream
}.

(** ** The handlers *)

Definition handleFileAttach (files : list File) (s : State) : State :=
  if (0 <? List.length files)%nat then
    toast {| title := "Files attached";
             description :=
               Str.cat [Str.ofNumber (Z.of_nat (List.length files));
                        " file(s) ready to upload"]%string;
             destructive := false |}
      (setAttachedFiles (fun prev => (prev ++ files)%list) s)
  else s.

(** [prev.filter((_, i) => i !== index)]. *)
Fixpoint removeAt {A : Type} (index : nat) (l : list A) : list A :=
  match l, index with
  | [], _ => []
  | _ :: r, O => r
  | x :: r, S i => x :: removeAt i r
  end.

Definition removeAttachment (index : nat) (s : State) : State :=
  setAttachedFiles (removeAt index) s.

(** The body of the [for] loop over the attachments: one block per file. *)
Definition attachmentStep (env : Env) (attachmentContext : string)
    (file : File) : string :=
  match extractFromBlob env file with
  | Some extractedText =>
      Str.cat [attachmentContext; Str.LF; Str.LF; "Content from "; name file;
               ":"; Str.LF; extractedText]%string
  | None =>
      Str.cat [attachmentContext; Str.LF; Str.LF; "Note: Could not process ";
               name file]%string
  end.

(** Lines 197-208. *)
Definition resolveAttachments (env : Env) (files : list File) : string :=
  if (0 <? List.length files)%nat
  then fold_left (attachmentStep env) files ""%string
  else ""%string.

(** Lines 226-286: the prompt of the selected stage. *)
Definition systemPrompt (conversationStage : Stage)
    (updatedProfile : UserProfile) (input attachmentContext : string)
    : string :=
  let context := profileContext updatedProfile conversationStage in
  match conversationStage with
  | collection => collectionPrompt context input attachmentContext
  | generation =>
      generationPrompt updatedProfile context input attachmentContext
  | refinement => refinementPrompt context input attachmentContext
  end.

(** [{ ...msg, content: c }]. *)
Definition withContent (msg : Message) (c : string) : Message :=
  {| id := id msg; role := role msg; content := c;
     timestamp := timestamp msg; attachments := attachments msg |}.

(** The callback of [streamText], lines 304-313: the pair is the local
    [assistantResponse] and the state. *)
Definition onChunk (assistantId : string) (acc : string * State)
    (chunk : string) : string * State :=
  let assistantResponse := Str.cat [fst acc; chunk] in
  (assistantResponse,
   setMessages
     (fun prev =>
        map (fun msg =>
               if String.eqb (id msg) assistantId
               then withContent msg assistantResponse
               else msg) prev)
     (snd acc)).

(** The successive values of the accumulator of a callback. *)
Fixpoint scan {A B : Type} (f : A -> B -> A) (acc : A) (l : list B) : list A :=
  match l with
  | [] => []
  | x :: r => f acc x :: scan f (f acc x) r
  end.

(** What a call of [handleSubmit] leaves behind: the prompt it sent, if it
    came to that, the stage it selected, the state published after each
    chunk of the reply, and the state when it returns. *)
Record Turn := {
  sent : option string;
  selected : option Stage;
  opened : option State;
  published : list State;
  final : State
}.

Definition handleSubmit (env : Env) (s : State) : Turn :=
  if Str.isBlank (input s) && (List.length (attachedFiles s) =? 0)%nat then
    {| sent := None; selected := None; opened := None; published := [];
       final := s |}
  else
    let userMessage :=
      {| id := Str.ofNumber (userClock env); role := user;
         content := input s; timestamp := userClock env;
         attachments :=
           if (0 <? List.length (attachedFiles s))%nat
           then Some (attachedFiles s) else None |} in
    let s1 := setMessages (fun prev => (prev ++ [userMessage])%list) s in
    let updatedProfile :=
      mergeProfile (userProfile s) (analyzeUserInput (input s)) in
    let s2 :=
      setIsLoading true
        (setAttachedFiles (fun _ => [])
           (setInput "" (setUserProfile updatedProfile s1))) in
    let attachmentContext := resolveAttachments env (attachedFiles s) in
    let conversationStage := getConversationStage updatedProfile in
    let prompt :=
      systemPrompt conversationStage updatedProfile (input s)
        attachmentContext in
    let assistantMessage :=
      {| id := Str.ofNumber (assistantClock env + 1); role := assistant;
         content := ""; timestamp := assistantClock env;
         attachments := None |} in
    let s3 := setMessages (fun prev => (prev ++ [assistantMessage])%list) s2 in
    let stream := streamText env prompt in
    let frames := scan (onChunk (id assistantMessage)) (""%string, s3)
                    (chunks stream) in
    let s4 := snd (last frames (""%string, s3)) in
    let s5 :=
      if rejected stream then
        toast {| title := "Error";
                 description :=
                   "Failed to generate response. Please try again.";
                 destructive := true |} s4
      else s4 in
    {| sent := Some prompt; selected := Some conversationStage;
       opened := Some s3; published := map snd frames;
       final := setIsLoading false s5 |}.

(** ** What the component shows *)

(** Line 480: the [disabled] attribute of the submit button. *)
Definition submitDisabled (s : State) : bool :=
  isLoading s
  || (Str.isBlank (input s) && (List.length (attachedFiles s) =? 0)%nat).


(** Line 348: the progress block is rendered. *)
Definition showsProgress (s : State) : bool :=
  Z.gtb (completeness (userProfile s)) 0.

(** Lines 356-364: the captions of the progress grid with the values they
    read. *)
Definition progressEntries (s : State) : list (string * option Value) :=
  [ ("Major", get Kmajor (userProfile s));
    ("Colleges", get Kcolleges (userProfile s));
    ("Essays", get KessayPrompts (userProfile s));
    ("Activities", get Kextracurriculars (userProfile s));
    ("Classes", get Kclasses (userProfile s));
    ("Hobbies", get Khobbies (userProfile s));
    ("Awards", get Kawards (userProfile s)) ].

(** Line 366: the condition of the check mark of an entry. *)
Definition isChecked (value : option Value) : bool :=
  truthy value &&
  match value with
  | Some (VString v) => (0 <? String.length v)%nat
  | Some (VArray l) => (0 <? List.length l)%nat
  | _ => false
  end.

(** Lines 364-373: each caption with its mark. *)
Definition progressMarks (s : State) : list (string * bool) :=
  map (fun entry => (fst entry, isChecked (snd entry))) (progressEntries s).

(** Line 375: the banner, which sits inside the progress block. *)
Definition showsReady (s : State) : bool :=
  showsProgress s && Z.geb (completeness (userProfile s)) 60.


(** ** The application shell ([App.tsx]) *)

Module App.

(** [interface User]. *)
Record User := { id : string; email : string; displayName : option string }.

(** What [blink.auth.onAuthStateChanged] reports. *)
Record AuthState := { user : option User; isLoading : bool }.

(** The [useState] cells of [App]. *)
Record State := { currentUser : option User; loading : bool }.

(** [useState<User | null>(null)] and [useState(true)]. *)
Definition initial : State := {| currentUser := None; loading := true |}.

(** The listener of lines 17-20. *)
Definition onAuthStateChanged (state : AuthState) (_ : State) : State :=
  {| currentUser := user state; loading := isLoading state |}.

(** The three things [App] returns. *)
Inductive Screen :=
| LoadingScreen
| SignInScreen
| ChatScreen (u : User).

(** Lines 24-62. *)
Definition render (s : State) : Screen :=
  if loading s then LoadingScreen
  else
    match currentUser s with
    | None => SignInScreen
    | Some u => ChatScreen u
    end.

End App.

(** ** The variant of the component without a profile

    The second part of [App.tsx] holds a variant of [ChatInterface] that
    keeps no profile: the same cells but [userProfile], the same
    [handleFileAttach] and [removeAttachment], and a [handleSubmit] that
    sends one fixed prompt. *)

Module Plain.

Record State := {
  messages : list Message;
  input : string;
  isLoading : bool;
  attachedFiles : list File;
  toasts : list Toast
}.

Definition setMessages (f : list Message -> list Message) (s : State) : State :=
  {| messages := f (messages s); input := input s; isLoading := isLoading s;
     attachedFiles := attachedFiles s; toasts := toasts s |}.

Definition setInput (v : string) (s : State) : State :=
  {| messages := messages s; input := v; isLoading := isLoading s;
     attachedFiles := attachedFiles s; toasts := toasts s |}.

Definition setIsLoading (v : bool) (s : State) : State :=
  {| messages := messages s; input := input s; isLoading := v;
     attachedFiles := attachedFiles s; toasts := toasts s |}.

Definition setAttachedFiles (f : list File -> list File) (s : State) : State :=
  {| messages := messages s; input := input s; isLoading := isLoading s;
     attachedFiles := f (attachedFiles s); toasts := toasts s |}.

Definition toast (t : Toast) (s : State) : State :=
  {| messages := messages s; input := input s; isLoading := isLoading s;
     attachedFiles := attachedFiles s; toasts := (toasts s ++ [t])%list |}.

Definition initialState (mounted : Z) : State :=
  {| messages :=
       [ {| id := "1"; role := assistant; content := welcome;
            timestamp := mounted; attachments := None |} ];
     input := "";
     isLoading := false;
     attachedFiles := [];
     toasts := [] |}.

Definition handleFileAttach (files : list File) (s : State) : State :=
  if (0 <? List.length files)%nat then
    toast {| title := "Files attached";
             description :=
               Str.cat [Str.ofNumber (Z.of_nat (List.length files));
                        " file(s) ready to upload"]%string;
             destructive := false |}
      (setAttachedFiles (fun prev => (prev ++ files)%list) s)
  else s.

Definition removeAttachment (index : nat) (s : State) : State :=
  setAttachedFiles (removeAt index) s.

(** Lines 173-184 of [App.tsx]. *)
Definition fullPrompt (user : App.User) (input attachmentContext : string)
    : string :=
  Str.cat
    [ input;
      attachmentContext;
      "

Context: You are StoryMode AI, helping a college applicant create compelling narratives. The user is ";
      App.email user;
      ". 

Your role is to:
1. Guide them to provide the required information (Major, Colleges, Essay prompts, Extracurriculars, Classes, Hobbies, Awards)
2. Analyze their profile holistically 
3. Generate brainstorming ideas that connect their experiences
4. Provide strategic guidance for specific colleges and essay prompts
5. Help them showcase their passion and academic interests

Be encouraging, insightful, and specific in your responses. Help them see connections between their different experiences and how they tell a cohesive story." ].

(** Lines 202-211 of [App.tsx]. *)
Definition onChunk (assistantId : string) (acc : string * State)
    (chunk : string) : string * State :=
  let assistantResponse := Str.cat [fst acc; chunk] in
  (assistantResponse,
   setMessages
     (fun prev =>
        map (fun msg =>
               if String.eqb (id msg) assistantId
               then withContent msg assistantResponse
               else msg) prev)
     (snd acc)).

Record Turn := {
  sent : option string;
  opened : option State;
  published : list State;
  final : State
}.

(** Lines 145-151 of [App.tsx]: the user message of a submission. *)
Definition userMessage (env : Env) (s : State) : Message :=
  {| id := Str.ofNumber (userClock env); role := user;
     content := input s; timestamp := userClock env;
     attachments :=
       if (0 <? List.length (attachedFiles s))%nat
       then Some (attachedFiles s) else None |}.

(** Lines 141-224 of [App.tsx]; [user] is the property of the
    component. *)
Definition handleSubmit (user : App.User) (env : Env) (s : State) : Turn :=
  if Str.isBlank (input s) && (List.length (attachedFiles s) =? 0)%nat then
    {| sent := None; opened := None; published := []; final := s |}
  else
    let s1 := setMessages (fun prev => (prev ++ [userMessage env s])%list) s in
    let s2 :=
      setIsLoading true (setAttachedFiles (fun _ => []) (setInput "" s1)) in
    let attachmentContext := resolveAttachments env (attachedFiles s) in
    let prompt := fullPrompt user (input s) attachmentContext in
    let assistantMessage :=
      {| id := Str.ofNumber (assistantClock env + 1); role := assistant;
         content := ""; timestamp := assistantClock env;
         attachments := None |} in
    let s3 := setMessages (fun prev => (prev ++ [assistantMessage])%list) s2 in
    let stream := streamText env prompt in
    let frames := scan (onChunk (id assistantMessage)) (""%string, s3)
                    (chunks stream) in
    let s4 := snd (last frames (""%string, s3)) in
    let s5 :=
      if rejected stream then
        toast {| title := "Error";
                 description :=
                   "Failed to generate response. Please try again.";
                 destructive := true |} s4
      else s4 in
    {| sent := Some prompt; opened := Some s3; published := map snd frames;
       final := setIsLoading false s5 |}.

End Plain.

(** * The vocabulary of the specification *)

(** ** The field classifier *)

(** Some keyword of the set occurs in the lowercased text. *)
Definition triggered (keywords : list string) (text : string) : Prop :=
  exists kw, In kw keywords /\ Str.Occurs kw (Str.toLowerCase text).

(** A property of the classifier output is present exactly when its keyword
    set is triggered, and then holds [fragment]. *)
Definition classified {A : Type} (field : option A) (fragment : A)
    (keywords : list string) (text : string) : Prop :=
  (field <> None <-> triggered keywords text)
  /\ (field = Some fragment \/ field = None).

(** ** The completeness score and the merge *)

(** The profile invariant of the data model: the stored score is the score
    of the seven fields. *)
Definition WellFormed (p : UserProfile) : Prop :=
  completeness p = calculateCompleteness p.

(** A populated field, in the words of the specification: a non-empty text,
    a non-empty sequence. *)
Definition populatedText (v : option string) : bool :=
  match v with
  | Some (String _ _) => true
  | _ => false
  end.

(** A populated multi-valued field. *)
Definition populatedSeq (v : option (list string)) : bool :=
  match v with
  | Some (_ :: _) => true
  | _ => false
  end.

(** The field [k] of [p] is populated; the completeness is no field. *)
Definition populated (k : Key) (p : UserProfile) : bool :=
  match k with
  | Kmajor => populatedText (major p)
  | Kcolleges => populatedSeq (colleges p)
  | KessayPrompts => populatedSeq (essayPrompts p)
  | Kextracurriculars => populatedSeq (extracurriculars p)
  | Kclasses => populatedSeq (classes p)
  | Khobbies => populatedSeq (hobbies p)
  | Kawards => populatedSeq (awards p)
  | Kcompleteness => false
  end.

(** The number of populated fields, from 0 to 7. *)
Definition populatedCount (p : UserProfile) : Z :=
  Z.b2z (populated Kmajor p) + Z.b2z (populated Kcolleges p)
  + Z.b2z (populated KessayPrompts p) + Z.b2z (populated Kextracurriculars p)
  + Z.b2z (populated Kclasses p) + Z.b2z (populated Khobbies p)
  + Z.b2z (populated Kawards p).

(** [z] is [x] rounded to the nearest integer, a tie going up. *)
Definition roundsHalfUp (x : Q) (z : Z) : Prop :=
  (inject_Z z - (1 # 2) <= x /\ x < inject_Z z + (1 # 2))%Q.

(** The percentages the score can take. *)
Definition scores : list Z := [0; 14; 29; 43; 57; 71; 86; 100].

(** The score of a number of completed fields. *)
Definition percent (count : nat) : Z :=
  Math_round ((inject_Z (Z.of_nat count) / inject_Z 7) * 100)%Q.

(** What the merge does to the single-valued field: a non-empty fragment
    replaces it. *)
Definition mergeText (old new : option string) : option string :=
  match new with
  | Some (String c r) => Some (String c r)
  | _ => old
  end.

(** What the merge does to a multi-valued field: fragments are appended. *)
Definition mergeSeq (old new : option (list string)) : option (list string) :=
  match new with
  | Some l => Some (match old with Some o => o | None => [] end ++ l)%list
  | None => old
  end.

(** The seven fields after the merge loop, before the rescoring. *)
Definition mergedFields (p : UserProfile) (e : Partial.t) : UserProfile :=
  {| major := mergeText (major p) (Partial.major e);
     colleges := mergeSeq (colleges p) (Partial.colleges e);
     essayPrompts := mergeSeq (essayPrompts p) (Partial.essayPrompts e);
     extracurriculars :=
       mergeSeq (extracurriculars p) (Partial.extracurriculars e);
     classes := mergeSeq (classes p) (Partial.classes e);
     hobbies := mergeSeq (hobbies p) (Partial.hobbies e);
     awards := mergeSeq (awards p) (Partial.awards e);
     completeness :=
       match Partial.completeness e with
       | Some n => if Z.eqb n 0 then completeness p else n
       | None => completeness p
       end |}.

(** A multi-valued field as a sequence: an absent one has no fragment. *)
Definition fragments (v : option (list string)) : list string :=
  match v with
  | Some l => l
  | None => []
  end.

(** ** Turns and reachable states *)

(** The guard of [handleSubmit]: nothing typed and nothing attached. *)
Definition ignored (s : State) : bool :=
  Str.isBlank (input s) && (List.length (attachedFiles s) =? 0)%nat.

(** The states of the component: from the mount, through typing, attaching,
    detaching and submitting. *)
Inductive reachable : State -> Prop :=
| reach_mount (mounted : Z) : reachable (initialState mounted)
| reach_type (s : State) (v : string) :
    reachable s -> reachable (setInput v s)
| reach_attach (s : State) (files : list File) :
    reachable s -> reachable (handleFileAttach files s)
| reach_detach (s : State) (index : nat) :
    reachable s -> reachable (removeAttachment index s)
| reach_submit (s : State) (env : Env) :
    reachable s -> reachable (final (handleSubmit env s)).

(** ** Texts without a keyword *)

(** The keywords of the seven trigger sets. *)
Definition triggerKeywords : list string :=
  ["major"; "study"; "field";
   "college"; "university"; "school";
   "essay"; "prompt"; "question";
   "extracurricular"; "activity"; "club"; "volunteer"; "leadership";
   "class"; "course"; "ap "; "honors"; "ib ";
   "hobby"; "interest"; "passion"; "enjoy"; "love";
   "award"; "recognition"; "achievement"; "honor"; "prize"].

(** No keyword of any trigger set occurs in the lowercased text. *)
Definition keywordFree (text : string) : Prop :=
  forall kw, In kw triggerKeywords -> ~ Str.Occurs kw (Str.toLowerCase text).

(** A character that is neither a letter nor changed by lowercasing. *)
Definition plain (c : ascii) : bool :=
  let n := nat_of_ascii c in ((n <=? 32) || (128 <=? n))%nat.

(** Every character of [s] satisfies [P]. *)
Fixpoint allChars (P : ascii -> bool) (s : string) : bool :=
  match s with
  | EmptyString => true
  | String c r => P c && allChars P r
  end.

(** ** The streamed reply *)

(** The content of the message at position [slot] of the conversation. *)
Definition contentAt (slot : nat) (s : State) : option string :=
  option_map content (nth_error (messages s) slot).

(** The message at [slot] carries the id the callback looks for. *)
Definition holds (assistantId : string) (slot : nat) (s : State) : Prop :=
  exists m, nth_error (messages s) slot = Some m /\ id m = assistantId.

(** ** Attachments and the prompt *)

(** The block of one attachment: its extracted text under a label with the
    file name, or a placeholder with the file name when extraction fails. *)
Definition blockOf (env : Env) (file : File) : string :=
  match extractFromBlob env file with
  | Some extractedText =>
      Str.LF ++ Str.LF ++ "Content from " ++ name file ++ ":" ++ Str.LF
      ++ extractedText
  | None => Str.LF ++ Str.LF ++ "Note: Could not process " ++ name file
  end.

(** [s] ends with [k]. *)
Fixpoint endsWith (s k : string) : bool :=
  String.eqb s k ||
  match s with
  | EmptyString => false
  | String _ r => endsWith r k
  end.

(** The line that introduces the message of the user in every prompt. *)
Definition messageMarker : string := "User's latest message: ".

(** A value as the snapshot prints it: the literal [Not specified] in place
    of an empty one. *)
Definition shown (v : string) : string :=
  match v with
  | EmptyString => "Not specified"
  | _ => v
  end.

(** The printed value of a property of the profile. *)
Definition rendered (k : Key) (p : UserProfile) : string :=
  match k with
  | Kmajor => shown (match major p with Some s => s | None => "" end)
  | Kcolleges => shown (Str.join ", " (fragments (colleges p)))
  | KessayPrompts => shown (Str.join "; " (fragments (essayPrompts p)))
  | Kextracurriculars =>
      shown (Str.join ", " (fragments (extracurriculars p)))
  | Kclasses => shown (Str.join ", " (fragments (classes p)))
  | Khobbies => shown (Str.join ", " (fragments (hobbies p)))
  | Kawards => shown (Str.join ", " (fragments (awards p)))
  | Kcompleteness => Str.ofNumber (completeness p) ++ "%"
  end.

(** The label that starts the line of a property in the snapshot. *)
Definition label (k : Key) : string :=
  match k with
  | Kmajor => "- Major: "
  | Kcolleges => "- Target Colleges: "
  | KessayPrompts => "- Essay Prompts: "
  | Kextracurriculars => "- Extracurriculars: "
  | Kclasses => "- Classes: "
  | Khobbies => "- Hobbies: "
  | Kawards => "- Awards: "
  | Kcompleteness => "- Profile Completeness: "
  end.

(** A full line of the snapshot. *)
Definition snapshotLine (k : Key) (p : UserProfile) : string :=
  Str.LF ++ label k ++ rendered k p ++ Str.LF.

(** The line of the snapshot that names the stage. *)
Definition stageLine (stage : Stage) : string :=
  Str.LF ++ "- Conversation Stage: " ++ stageName stage ++ Str.LF.

(** The six sections the generation prompt asks for, each with the first
    line of its instruction. *)
Definition generationSections : list string :=
  ["NARRATIVE THEMES
Identify 2-3 overarching themes that connect their experiences";
   "CONNECTION MATRIX  
Show how their major, extracurriculars, classes, hobbies, and awards interconnect";
   "COLLEGE-SPECIFIC STRATEGIES
For each target college, provide:";
   "ESSAY ROADMAP
For each essay prompt:";
   "BRAINSTORMING IDEAS
- Unique angles they haven't considered";
   "ACTION PLAN
Concrete next steps for their application strategy"].

(** ** Concrete inputs *)

(** The message of the end-to-end scenario. *)
Definition scenarioText : string :=
  "I'm majoring in computer science and applying to MIT".

(** An environment for closed examples: extraction fails on [b.pdf] and
    returns the content of any other file; the reply comes in three
    chunks. *)
Definition sampleEnv : Env :=
  {| userClock := 1000;
     assistantClock := 1005;
     extractFromBlob :=
       fun f => if String.eqb (name f) "b.pdf" then None else Some (blob f);
     streamText :=
       fun _ => {| chunks := ["Hel"; "lo "; "World"]; rejected := false |} |}.

(** The first turn of a conversation, on [text]. *)
Definition firstTurn (env : Env) (mounted : Z) (text : string) : Turn :=
  handleSubmit env (setInput text (initialState mounted)).

(** A profile with a given stored completeness and no field. *)
Definition scored (n : Z) : UserProfile :=
  set Kcompleteness (VNumber n) initialProfile.

(** Three attachments; extraction fails on the second under [sampleEnv]. *)
Definition sampleFiles : list File :=
  [ {| name := "a.txt"; blob := "AAA" |};
    {| name := "b.pdf"; blob := "BBB" |};
    {| name := "c.txt"; blob := "CCC" |} ].

(** A message typed into the fresh component. *)
Definition typed : State :=
  setInput "I love coding and won an award" (initialState 0).

(** The same state once [sampleFiles] are attached. *)
Definition typedWithFiles : State := handleFileAttach sampleFiles typed.

(** After one turn, a message without any keyword is typed. *)
Definition greeted : State :=
  setInput "Hello!" (final (handleSubmit sampleEnv typedWithFiles)).

(** An environment whose services all fail. *)
Definition failingEnv : Env :=
  {| userClock := 7; assistantClock := 7;
     extractFromBlob := fun _ => None;
     streamText := fun _ => {| chunks := []; rejected := true |} |}.

(** * Properties *)

(** ** Strings *)

Section StringFacts.

Lemma append_nil_r (s : string) : s ++ "" = s.
Proof. induction s as [|c s IH]; simpl; [reflexivity | now rewrite IH]. Qed.

Lemma append_assoc (a b c : string) : (a ++ b) ++ c = a ++ b ++ c.
Proof. induction a as [|x a IH]; simpl; [reflexivity | now rewrite IH]. Qed.

(** [String.prefix] is the relation "begins with". *)
Lemma prefix_iff (k s : string) :
  String.prefix k s = true <-> exists post, s = k ++ post.
Proof.
  revert s; induction k as [|c k IH]; intros s.
  - destruct s; simpl; split; eauto.
  - destruct s as [|d s]; simpl.
    + split; [discriminate | intros [post H]; discriminate].
    + destruct (ascii_dec c d) as [->|ne].
      * rewrite IH. split; intros [post H]; exists post.
        -- now rewrite H.
        -- now inversion H.
      * split; [discriminate | intros [post H]; exfalso; apply ne; now inversion H].
Qed.

(** [includes] decides occurrence. *)
Lemma includes_iff (s k : string) :
  Str.includes s k = true <-> Str.Occurs k s.
Proof.
  unfold Str.Occurs. induction s as [|c s IH].
  - cbn [Str.includes]. rewrite orb_false_r, prefix_iff. split.
    + intros [post H]. exists "", post. exact H.
    + intros [pre [post H]]. destruct pre; simpl in H.
      * now exists post.
      * discriminate.
  - cbn [Str.includes]. rewrite orb_true_iff, prefix_iff, IH. split.
    + intros [[post H] | [pre [post H]]].
      * exists "", post. exact H.
      * exists (String c pre), post. simpl. now rewrite H.
    + intros [pre [post H]]. destruct pre as [|d pre]; simpl in H.
      * left. now exists post.
      * right. inversion H. now exists pre, post.
Qed.

Lemma includes_false_iff (s k : string) :
  Str.includes s k = false <-> ~ Str.Occurs k s.
Proof.
  rewrite <- includes_iff. destruct (Str.includes s k); split; intuition congruence.
Qed.

Lemma Occurs_refl (s : string) : Str.Occurs s s.
Proof. exists "", "". simpl. now rewrite append_nil_r. Qed.

Lemma Occurs_trans (a b c : string) :
  Str.Occurs a b -> Str.Occurs b c -> Str.Occurs a c.
Proof.
  intros [p1 [q1 H1]] [p2 [q2 H2]]. subst.
  exists (p2 ++ p1), (q1 ++ q2). now rewrite !append_assoc.
Qed.

Lemma Occurs_append_l (k a b : string) :
  Str.Occurs k a -> Str.Occurs k (a ++ b).
Proof.
  intros [p [q H]]. subst. exists p, (q ++ b). now rewrite !append_assoc.
Qed.

Lemma Occurs_append_r (k a b : string) :
  Str.Occurs k b -> Str.Occurs k (a ++ b).
Proof.
  intros [p [q H]]. subst. exists (a ++ p), q. now rewrite !append_assoc.
Qed.

(** A piece of a template literal occurs in the rendered text. *)
Lemma Occurs_cat (k piece : string) (pieces : list string) :
  In piece pieces -> Str.Occurs k piece -> Str.Occurs k (Str.cat pieces).
Proof.
  unfold Str.cat. induction pieces as [|x r IH]; intros Hin Hk; [destruct Hin|].
  destruct Hin as [->|Hin].
  - destruct r; simpl; [exact Hk | now apply Occurs_append_l].
  - destruct r as [|y r']; [destruct Hin|].
    change (String.concat "" (x :: y :: r')) with (x ++ String.concat "" (y :: r')).
    apply Occurs_append_r. now apply IH.
Qed.

Lemma cat_cons (x : string) (r : list string) :
  Str.cat (x :: r) = x ++ Str.cat r.
Proof.
  unfold Str.cat. destruct r; simpl; [now rewrite append_nil_r | reflexivity].
Qed.

Lemma cat_app (l1 l2 : list string) :
  Str.cat (l1 ++ l2) = Str.cat l1 ++ Str.cat l2.
Proof.
  induction l1 as [|x l1 IH]; [reflexivity|].
  change ((x :: l1) ++ l2)%list with (x :: (l1 ++ l2))%list.
  now rewrite !cat_cons, IH, append_assoc.
Qed.

End StringFacts.

(** ** The field classifier *)

Lemma triggered_existsb (keywords : list string) (text : string) :
  existsb (Str.includes (Str.toLowerCase text)) keywords = true
  <-> triggered keywords text.
Proof.
  unfold triggered. rewrite existsb_exists.
  split; intros [kw [Hin H]]; exists kw; split; auto; now apply includes_iff.
Qed.

Lemma classified_if {A : Type} (b : bool) (fragment : A)
    (keywords : list string) (text : string) :
  b = existsb (Str.includes (Str.toLowerCase text)) keywords ->
  classified (if b then Some fragment else None) fragment keywords text.
Proof.
  intros ->. unfold classified. rewrite <- triggered_existsb.
  destruct (existsb _ keywords); split; auto; split; congruence.
Qed.

Ltac classify :=
  apply classified_if; cbn [existsb];
  rewrite ?orb_false_r, ?orb_assoc; reflexivity.

(** C3.  For every message text, each of the seven fields is present in the
    output of [analyzeUserInput] if and only if the lowercased text contains
    one of the keywords of that field; a field that is present holds the
    whole original text (as a string for [major], as a one-element array for
    the six list fields); and one text can trigger several fields. *)
Theorem analyzeUserInput_keyword_containment :
  (forall text : string,
     let out := analyzeUserInput text in
     classified (Partial.major out) text ["major"; "study"; "field"] text
     /\ classified (Partial.colleges out) [text]
          ["college"; "university"; "school"] text
     /\ classified (Partial.essayPrompts out) [text]
          ["essay"; "prompt"; "question"] text
     /\ classified (Partial.extracurriculars out) [text]
          ["extracurricular"; "activity"; "club"; "volunteer"; "leadership"]
          text
     /\ classified (Partial.classes out) [text]
          ["class"; "course"; "ap "; "honors"; "ib "] text
     /\ classified (Partial.hobbies out) [text]
          ["hobby"; "interest"; "passion"; "enjoy"; "love"] text
     /\ classified (Partial.awards out) [text]
          ["award"; "recognition"; "achievement"; "honor"; "prize"] text
     /\ Partial.completeness out = None)
  /\ (let out := analyzeUserInput "I love coding and won an award" in
      Partial.hobbies out = Some ["I love coding and won an award"]
      /\ Partial.awards out = Some ["I love coding and won an award"]).
Proof.
  split.
  - intros text out. unfold out, analyzeUserInput. cbn beta zeta.
    cbn [Partial.major Partial.colleges Partial.essayPrompts
         Partial.extracurriculars Partial.classes Partial.hobbies
         Partial.awards Partial.completeness].
    repeat match goal with |- _ /\ _ => split end; try classify.
    reflexivity.
  - vm_compute. split; reflexivity.
Qed.

(** ** The completeness score *)

Lemma calculateCompleteness_percent (p : UserProfile) :
  calculateCompleteness p
  = percent (List.length (filter (isCompleted p) fields)).
Proof. reflexivity. Qed.

Lemma isCompleted_populated (p : UserProfile) (k : Key) :
  isCompleted p k = populated k p.
Proof.
  destruct p as [m c e x cl h a n].
  destruct k; unfold isCompleted; cbn;
    match goal with
    | |- context [option_map VString ?v] => destruct v as [[|? ?]|]
    | |- context [option_map VArray ?v] => destruct v as [[|? ?]|]
    | _ => idtac
    end; rewrite ?andb_false_r; reflexivity.
Qed.

Lemma filter_length_le {A : Type} (f : A -> bool) (l : list A) :
  (List.length (filter f l) <= List.length l)%nat.
Proof.
  induction l as [|x l IH]; simpl; [lia|]. destruct (f x); simpl; lia.
Qed.

Lemma filter_length_mono {A : Type} (f g : A -> bool) (l : list A) :
  (forall x, In x l -> f x = true -> g x = true) ->
  (List.length (filter f l) <= List.length (filter g l))%nat.
Proof.
  induction l as [|x l IH]; intros H; simpl; [lia|].
  assert (IH' := IH (fun y Hy => H y (or_intror Hy))).
  destruct (f x) eqn:Hf.
  - rewrite (H x (or_introl eq_refl) Hf). simpl. lia.
  - destruct (g x); simpl; lia.
Qed.

Lemma completed_le_7 (p : UserProfile) :
  (List.length (filter (isCompleted p) fields) <= 7)%nat.
Proof. apply (filter_length_le (isCompleted p) fields). Qed.

(** Case analysis on a count of at most seven fields. *)
Ltac upto7 n :=
  let H := fresh in
  assert (H : In n (seq 0 8)) by (apply in_seq; lia);
  cbn in H;
  repeat (destruct H as [H|H]; [subst n|]);
  [..|destruct H].

Lemma percent_scores (n : nat) : (n <= 7)%nat -> In (percent n) scores.
Proof.
  intros H. upto7 n; vm_compute; tauto.
Qed.

Lemma percent_mono (n m : nat) :
  (n <= m)%nat -> (m <= 7)%nat -> percent n <= percent m.
Proof.
  intros Hnm Hm. assert (Hn : (n <= 7)%nat) by lia.
  upto7 n; upto7 m; try (exfalso; lia); vm_compute; congruence.
Qed.

Lemma percent_roundsHalfUp (n : nat) :
  (n <= 7)%nat -> roundsHalfUp (100 * inject_Z (Z.of_nat n) / 7) (percent n).
Proof.
  intros H. upto7 n; vm_compute; split; congruence.
Qed.

Lemma completed_count (p : UserProfile) :
  Z.of_nat (List.length (filter (isCompleted p) fields)) = populatedCount p.
Proof.
  unfold populatedCount, fields. cbn [filter].
  rewrite !isCompleted_populated.
  destruct (populated Kmajor p), (populated Kcolleges p),
    (populated KessayPrompts p), (populated Kextracurriculars p),
    (populated Kclasses p), (populated Khobbies p), (populated Kawards p);
    reflexivity.
Qed.

Lemma calculateCompleteness_roundsHalfUp (p : UserProfile) :
  roundsHalfUp (100 * inject_Z (populatedCount p) / 7)
    (calculateCompleteness p).
Proof.
  rewrite calculateCompleteness_percent, <- completed_count.
  apply percent_roundsHalfUp, completed_le_7.
Qed.

Lemma calculateCompleteness_scores (p : UserProfile) :
  In (calculateCompleteness p) scores.
Proof.
  rewrite calculateCompleteness_percent. apply percent_scores, completed_le_7.
Qed.

(** ** The profile store *)

Lemma fold_left_filter {A B : Type} (f : A -> B -> A) (P : B -> bool)
    (l : list B) :
  (forall a x, P x = false -> f a x = a) ->
  forall a, fold_left f (filter P l) a = fold_left f l a.
Proof.
  intros H. induction l as [|x l IH]; intros a; simpl; [reflexivity|].
  destruct (P x) eqn:E; simpl; [apply IH | rewrite (H a x E); apply IH].
Qed.

Lemma mergeKey_absent (e : Partial.t) (p : UserProfile) (k : Key) :
  isPresent (getPartial k e) = false -> mergeKey e p k = p.
Proof.
  unfold mergeKey. destruct (getPartial k e); [discriminate | reflexivity].
Qed.

Ltac merge_cases p e k :=
  destruct p as [? ? ? ? ? ? ? ?];
  destruct e as [[[|? ?]|] [?|] [?|] [?|] [?|] [?|] [?|] [?|]];
  destruct k; try reflexivity;
  unfold mergeKey; cbn;
  repeat match goal with
         | |- context [option_map VArray ?v] => destruct v; cbn
         | |- context [Z.eqb ?v 0] => destruct (Z.eqb v 0); cbn
         end; reflexivity.

Lemma major_mergeKey (e : Partial.t) (p : UserProfile) (k : Key) :
  major (mergeKey e p k)
  = match k with
    | Kmajor => mergeText (major p) (Partial.major e)
    | _ => major p
    end.
Proof. merge_cases p e k. Qed.

Lemma colleges_mergeKey (e : Partial.t) (p : UserProfile) (k : Key) :
  colleges (mergeKey e p k)
  = match k with
    | Kcolleges => mergeSeq (colleges p) (Partial.colleges e)
    | _ => colleges p
    end.
Proof. merge_cases p e k. Qed.

Lemma essayPrompts_mergeKey (e : Partial.t) (p : UserProfile) (k : Key) :
  essayPrompts (mergeKey e p k)
  = match k with
    | KessayPrompts => mergeSeq (essayPrompts p) (Partial.essayPrompts e)
    | _ => essayPrompts p
    end.
Proof. merge_cases p e k. Qed.

Lemma extracurriculars_mergeKey (e : Partial.t) (p : UserProfile) (k : Key) :
  extracurriculars (mergeKey e p k)
  = match k with
    | Kextracurriculars => mergeSeq (extracurriculars p) (Partial.extracurriculars e)
    | _ => extracurriculars p
    end.
Proof. merge_cases p e k. Qed.

Lemma classes_mergeKey (e : Partial.t) (p : UserProfile) (k : Key) :
  classes (mergeKey e p k)
  = match k with
    | Kclasses => mergeSeq (classes p) (Partial.classes e)
    | _ => classes p
    end.
Proof. merge_cases p e k. Qed.

Lemma hobbies_mergeKey (e : Partial.t) (p : UserProfile) (k : Key) :
  hobbies (mergeKey e p k)
  = match k with
    | Khobbies => mergeSeq (hobbies p) (Partial.hobbies e)
    | _ => hobbies p
    end.
Proof. merge_cases p e k. Qed.

Lemma awards_mergeKey (e : Partial.t) (p : UserProfile) (k : Key) :
  awards (mergeKey e p k)
  = match k with
    | Kawards => mergeSeq (awards p) (Partial.awards e)
    | _ => awards p
    end.
Proof. merge_cases p e k. Qed.

Lemma completeness_mergeKey (e : Partial.t) (p : UserProfile) (k : Key) :
  completeness (mergeKey e p k)
  = match k with
    | Kcompleteness =>
        match Partial.completeness e with
        | Some n => if Z.eqb n 0 then completeness p else n
        | None => completeness p
        end
    | _ => completeness p
    end.
Proof. merge_cases p e k. Qed.

Lemma profile_ext (p q : UserProfile) :
  major p = major q -> colleges p = colleges q ->
  essayPrompts p = essayPrompts q ->
  extracurriculars p = extracurriculars q -> classes p = classes q ->
  hobbies p = hobbies q -> awards p = awards q ->
  completeness p = completeness q -> p = q.
Proof. destruct p, q; simpl; congruence. Qed.

Lemma merge_loop (p : UserProfile) (e : Partial.t) :
  fold_left (mergeKey e) (keys e) p = mergedFields p e.
Proof.
  unfold keys.
  rewrite (fold_left_filter (mergeKey e)
             (fun k => isPresent (getPartial k e)) allKeys)
    by (intros a x H; now apply mergeKey_absent).
  cbn [fold_left allKeys].
  apply profile_ext;
    rewrite ?major_mergeKey, ?colleges_mergeKey, ?essayPrompts_mergeKey,
      ?extracurriculars_mergeKey, ?classes_mergeKey, ?hobbies_mergeKey,
      ?awards_mergeKey, ?completeness_mergeKey;
    reflexivity.
Qed.

Lemma mergeProfile_unfold (p : UserProfile) (e : Partial.t) :
  mergeProfile p e
  = set Kcompleteness (VNumber (calculateCompleteness (mergedFields p e)))
      (mergedFields p e).
Proof. unfold mergeProfile. now rewrite merge_loop. Qed.

(** The score reads the seven fields only. *)
Lemma calculateCompleteness_set (p : UserProfile) (n : Z) :
  calculateCompleteness (set Kcompleteness (VNumber n) p)
  = calculateCompleteness p.
Proof. destruct p; reflexivity. Qed.

Lemma populated_set (p : UserProfile) (n : Z) (k : Key) :
  populated k (set Kcompleteness (VNumber n) p) = populated k p.
Proof. destruct p, k; reflexivity. Qed.

Lemma mergeProfile_WellFormed (p : UserProfile) (e : Partial.t) :
  WellFormed (mergeProfile p e).
Proof.
  unfold WellFormed. rewrite mergeProfile_unfold, calculateCompleteness_set.
  reflexivity.
Qed.

Lemma mergeProfile_empty (p : UserProfile) :
  mergeProfile p Partial.empty
  = set Kcompleteness (VNumber (calculateCompleteness p)) p.
Proof. reflexivity. Qed.

Lemma mergeProfile_empty_id (p : UserProfile) :
  WellFormed p -> mergeProfile p Partial.empty = p.
Proof.
  unfold WellFormed. intros H. rewrite mergeProfile_empty, <- H.
  destruct p; reflexivity.
Qed.

Lemma mergeText_populated (old new : option string) :
  populatedText old = true -> populatedText (mergeText old new) = true.
Proof. destruct new as [[|? ?]|]; simpl; auto. Qed.

Lemma mergeSeq_populated (old new : option (list string)) :
  populatedSeq old = true -> populatedSeq (mergeSeq old new) = true.
Proof.
  destruct new as [l|]; simpl; auto.
  destruct old as [[|? ?]|]; simpl; auto; discriminate.
Qed.

Lemma mergedFields_populated (p : UserProfile) (e : Partial.t) (k : Key) :
  populated k p = true -> populated k (mergedFields p e) = true.
Proof.
  destruct k; simpl;
    auto using mergeText_populated, mergeSeq_populated.
Qed.

Lemma mergeProfile_populated (p : UserProfile) (e : Partial.t) (k : Key) :
  populated k p = true -> populated k (mergeProfile p e) = true.
Proof.
  intros H. rewrite mergeProfile_unfold, populated_set.
  now apply mergedFields_populated.
Qed.

Lemma mergeProfile_raises (p : UserProfile) (e : Partial.t) :
  calculateCompleteness p <= completeness (mergeProfile p e).
Proof.
  rewrite (mergeProfile_WellFormed p e), !calculateCompleteness_percent.
  apply percent_mono; [|apply completed_le_7].
  apply filter_length_mono. intros k _.
  rewrite !isCompleted_populated. apply mergeProfile_populated.
Qed.

Lemma mergeSeq_fragments (old new : option (list string)) :
  fragments (mergeSeq old new) = (fragments old ++ fragments new)%list.
Proof.
  destruct new as [l|], old as [o|]; simpl; rewrite ?app_nil_r; reflexivity.
Qed.

Lemma mergeProfile_fields (p : UserProfile) (e : Partial.t) :
  major (mergeProfile p e) = mergeText (major p) (Partial.major e)
  /\ colleges (mergeProfile p e) = mergeSeq (colleges p) (Partial.colleges e)
  /\ essayPrompts (mergeProfile p e)
     = mergeSeq (essayPrompts p) (Partial.essayPrompts e)
  /\ extracurriculars (mergeProfile p e)
     = mergeSeq (extracurriculars p) (Partial.extracurriculars e)
  /\ classes (mergeProfile p e) = mergeSeq (classes p) (Partial.classes e)
  /\ hobbies (mergeProfile p e) = mergeSeq (hobbies p) (Partial.hobbies e)
  /\ awards (mergeProfile p e) = mergeSeq (awards p) (Partial.awards e).
Proof. rewrite mergeProfile_unfold. repeat split. Qed.

(** C4.  For every profile and every classifier output, the completeness of
    the merged profile is at least the completeness of the profile before,
    both as the share of populated fields and, on a profile that satisfies
    the invariant, as the stored value.  No populated field loses that
    status; each multi-valued field is the old sequence followed by the new
    fragments; the major is replaced by a non-empty fragment and kept
    otherwise. *)
Theorem merge_never_lowers_completeness (p : UserProfile) (e : Partial.t) :
  calculateCompleteness p <= completeness (mergeProfile p e)
  /\ (WellFormed p -> completeness p <= completeness (mergeProfile p e))
  /\ (forall k, populated k p = true -> populated k (mergeProfile p e) = true)
  /\ (populatedText (Partial.major e) = true ->
      major (mergeProfile p e) = Partial.major e)
  /\ (populatedText (Partial.major e) = false ->
      major (mergeProfile p e) = major p)
  /\ fragments (colleges (mergeProfile p e))
     = (fragments (colleges p) ++ fragments (Partial.colleges e))%list
  /\ fragments (essayPrompts (mergeProfile p e))
     = (fragments (essayPrompts p) ++ fragments (Partial.essayPrompts e))%list
  /\ fragments (extracurriculars (mergeProfile p e))
     = (fragments (extracurriculars p)
        ++ fragments (Partial.extracurriculars e))%list
  /\ fragments (classes (mergeProfile p e))
     = (fragments (classes p) ++ fragments (Partial.classes e))%list
  /\ fragments (hobbies (mergeProfile p e))
     = (fragments (hobbies p) ++ fragments (Partial.hobbies e))%list
  /\ fragments (awards (mergeProfile p e))
     = (fragments (awards p) ++ fragments (Partial.awards e))%list.
Proof.
  destruct (mergeProfile_fields p e) as (Hm & Hc & He & Hx & Hcl & Hh & Ha).
  rewrite Hc, He, Hx, Hcl, Hh, Ha, !mergeSeq_fragments, Hm.
  split; [apply mergeProfile_raises|].
  split; [intros H; rewrite H; apply mergeProfile_raises|].
  split; [intros k; apply mergeProfile_populated|].
  split; [destruct (Partial.major e) as [[|? ?]|]; simpl; congruence|].
  split; [destruct (Partial.major e) as [[|? ?]|]; simpl; congruence|].
  repeat split.
Qed.

(** ** A turn *)

Lemma scan_last {A B : Type} (f : A -> B -> A) (l : list B) (a d : A) :
  last (scan f a l) d = match l with [] => d | _ => fold_left f l a end.
Proof.
  revert a d. induction l as [|x l IH]; intros a d; [reflexivity|].
  cbn [scan fold_left]. destruct l as [|y l'].
  - reflexivity.
  - specialize (IH (f a x) d). cbn [scan] in IH |- *.
    remember (f (f a x) y :: scan f (f (f a x) y) l') as r.
    cbn [last]. destruct r; [discriminate|exact IH].
Qed.

Lemma onChunk_userProfile (i : string) (l : list string) (acc : string * State) :
  userProfile (snd (fold_left (onChunk i) l acc)) = userProfile (snd acc).
Proof.
  revert acc. induction l as [|x l IH]; intros acc; simpl; [reflexivity|].
  now rewrite IH.
Qed.

Lemma streamed_userProfile (i : string) (l : list string) (s : State) :
  userProfile (snd (last (scan (onChunk i) (""%string, s) l) (""%string, s)))
  = userProfile s.
Proof.
  rewrite scan_last. destruct l; [reflexivity|].
  now rewrite onChunk_userProfile.
Qed.

Lemma handleSubmit_ignored (env : Env) (s : State) :
  ignored s = true ->
  handleSubmit env s
  = {| sent := None; selected := None; opened := None; published := [];
       final := s |}.
Proof. unfold handleSubmit, ignored. now intros ->. Qed.

(** The profile a call of [handleSubmit] leaves in the state. *)
Lemma handleSubmit_userProfile (env : Env) (s : State) :
  userProfile (final (handleSubmit env s))
  = if ignored s then userProfile s
    else mergeProfile (userProfile s) (analyzeUserInput (input s)).
Proof.
  unfold handleSubmit, ignored.
  destruct (Str.isBlank (input s) && (List.length (attachedFiles s) =? 0)%nat);
    [reflexivity|].
  cbn [final].
  match goal with
  | |- userProfile (setIsLoading false (if ?b then toast ?t ?x else ?x)) = _ =>
      transitivity (userProfile x); [destruct b; reflexivity|]
  end.
  now rewrite streamed_userProfile.
Qed.

(** The stage a call of [handleSubmit] selects is the stage of the profile
    it leaves. *)
Lemma handleSubmit_selected (env : Env) (s : State) :
  selected (handleSubmit env s)
  = if ignored s then None
    else Some (getConversationStage (userProfile (final (handleSubmit env s)))).
Proof.
  rewrite handleSubmit_userProfile.
  unfold handleSubmit, ignored.
  destruct (Str.isBlank (input s) && (List.length (attachedFiles s) =? 0)%nat);
    reflexivity.
Qed.

Lemma handleSubmit_sent (env : Env) (s : State) :
  sent (handleSubmit env s)
  = if ignored s then None
    else
      let updatedProfile :=
        mergeProfile (userProfile s) (analyzeUserInput (input s)) in
      Some (systemPrompt (getConversationStage updatedProfile) updatedProfile
              (input s) (resolveAttachments env (attachedFiles s))).
Proof.
  unfold handleSubmit, ignored.
  destruct (Str.isBlank (input s) && (List.length (attachedFiles s) =? 0)%nat);
    reflexivity.
Qed.

Lemma handleFileAttach_userProfile (files : list File) (s : State) :
  userProfile (handleFileAttach files s) = userProfile s.
Proof. unfold handleFileAttach. destruct (_ <? _)%nat; reflexivity. Qed.

(** The invariant holds in every state of the component. *)
Lemma reachable_WellFormed (s : State) :
  reachable s -> WellFormed (userProfile s).
Proof.
  induction 1 as [m | s v _ IH | s fs _ IH | s i _ IH | s env _ IH].
  - reflexivity.
  - exact IH.
  - now rewrite handleFileAttach_userProfile.
  - exact IH.
  - rewrite handleSubmit_userProfile. destruct (ignored s); [exact IH|].
    apply mergeProfile_WellFormed.
Qed.

(** ** The score of reachable profiles *)

(** C1.  After every merge the stored completeness is 100 times the number
    of populated fields over 7, rounded to the nearest integer with a tie
    going up; the same holds after every turn that [handleSubmit] carries
    out and in every reachable state, where the value is one of 0, 14, 29,
    43, 57, 71, 86 and 100 (the scores of 0 to 7 populated fields); the
    initial profile has completeness 0. *)
Theorem completeness_is_rounded_share :
  (forall (p : UserProfile) (e : Partial.t),
     let q := mergeProfile p e in
     roundsHalfUp (100 * inject_Z (populatedCount q) / 7) (completeness q))
  /\ (forall (env : Env) (s : State),
        ignored s = false ->
        let q := userProfile (final (handleSubmit env s)) in
        roundsHalfUp (100 * inject_Z (populatedCount q) / 7) (completeness q))
  /\ (forall s : State,
        reachable s ->
        roundsHalfUp (100 * inject_Z (populatedCount (userProfile s)) / 7)
          (completeness (userProfile s))
        /\ In (completeness (userProfile s)) scores)
  /\ map percent (seq 0 8) = scores
  /\ completeness initialProfile = 0
  /\ (forall mounted : Z, userProfile (initialState mounted) = initialProfile).
Proof.
  assert (Hmerge : forall (p : UserProfile) (e : Partial.t),
             roundsHalfUp (100 * inject_Z (populatedCount (mergeProfile p e)) / 7)
               (completeness (mergeProfile p e))).
  { intros p e. rewrite (mergeProfile_WellFormed p e).
    apply calculateCompleteness_roundsHalfUp. }
  split; [exact Hmerge|]. split; [|split; [|repeat split]].
  - intros env s Hg q. unfold q. rewrite handleSubmit_userProfile, Hg.
    apply Hmerge.
  - intros s H. apply reachable_WellFormed in H. rewrite H. split.
    + apply calculateCompleteness_roundsHalfUp.
    + apply calculateCompleteness_scores.
Qed.

(** ** The stage selector *)

(** C2.  For a completeness between 0 and 100 the stage is [collection]
    exactly below 60 and [generation] exactly from 60 on, and it is never
    [refinement]. *)
Theorem stage_threshold (p : UserProfile) :
  0 <= completeness p <= 100 ->
  (getConversationStage p = collection <-> completeness p < 60)
  /\ (getConversationStage p = generation <-> completeness p >= 60)
  /\ getConversationStage p <> refinement.
Proof.
  intros _. unfold getConversationStage.
  destruct (Z.ltb_spec (completeness p) 60) as [H|H].
  - repeat split; intros; try lia; congruence.
  - rewrite (proj2 (Z.geb_le _ _) H).
    repeat split; intros; try lia; congruence.
Qed.

(** ** Texts without a keyword *)

Lemma keywordFree_empty_output (text : string) :
  keywordFree text -> analyzeUserInput text = Partial.empty.
Proof.
  intros H. unfold analyzeUserInput. cbv zeta.
  repeat match goal with
         | |- context [Str.includes ?s ?k] =>
             rewrite (proj2 (includes_false_iff s k))
               by (apply H; cbn; repeat (first [left; reflexivity | right]))
         end.
  reflexivity.
Qed.

Lemma plain_lowerChar (c : ascii) : plain c = true -> Str.lowerChar c = c.
Proof.
  unfold plain, Str.lowerChar. cbv zeta. intros H.
  apply orb_true_iff in H.
  destruct (Nat.leb_spec 65 (nat_of_ascii c)), (Nat.leb_spec (nat_of_ascii c) 90);
    try reflexivity.
  exfalso. destruct H as [H|H]; apply Nat.leb_le in H; lia.
Qed.

Lemma space1_plain (a : ascii) : Str.isSpace1 a = true -> plain a = true.
Proof.
  unfold Str.isSpace1, plain. cbv zeta.
  rewrite !orb_true_iff, !andb_true_iff, !Nat.leb_le, Nat.eqb_eq. lia.
Qed.

Lemma space2_plain (a b : ascii) :
  Str.isSpace2 a b = true -> plain a = true /\ plain b = true.
Proof.
  unfold Str.isSpace2, plain. cbv zeta.
  rewrite !orb_true_iff, !andb_true_iff, !Nat.leb_le, !Nat.eqb_eq. lia.
Qed.

Lemma space3_plain (a b c : ascii) :
  Str.isSpace3 a b c = true ->
  plain a = true /\ plain b = true /\ plain c = true.
Proof.
  unfold Str.isSpace3, plain. cbv zeta.
  rewrite !orb_true_iff, !andb_true_iff, !orb_true_iff, !andb_true_iff,
    !Nat.leb_le, !Nat.eqb_eq.
  lia.
Qed.

Lemma blank_plain_bounded (n : nat) :
  forall s, (String.length s <= n)%nat ->
            Str.isBlank s = true -> allChars plain s = true.
Proof.
  induction n as [|n IH]; intros s Hlen Hb.
  - destruct s; [reflexivity | simpl in Hlen; lia].
  - destruct s as [|a r1]; [reflexivity|].
    cbn [Str.isBlank] in Hb. simpl in Hlen.
    destruct (Str.isSpace1 a) eqn:E1.
    + cbn [allChars]. rewrite (space1_plain a E1). apply IH; [lia | exact Hb].
    + destruct r1 as [|b r2]; [discriminate|]. simpl in Hlen.
      destruct (Str.isSpace2 a b) eqn:E2.
      * destruct (space2_plain a b E2) as [Ha Hb'].
        cbn [allChars]. rewrite Ha, Hb'. apply IH; [lia | exact Hb].
      * destruct r2 as [|c r3]; [discriminate|]. simpl in Hlen.
        destruct (Str.isSpace3 a b c) eqn:E3; [|discriminate].
        destruct (space3_plain a b c E3) as (Ha & Hb' & Hc).
        cbn [allChars]. rewrite Ha, Hb', Hc. apply IH; [lia | exact Hb].
Qed.

Lemma blank_plain (s : string) :
  Str.isBlank s = true -> allChars plain s = true.
Proof. apply (blank_plain_bounded (String.length s)). lia. Qed.

(** A text of plain characters contains no word that starts with a letter. *)
Lemma plain_no_occurrence (s : string) (c : ascii) (k : string) :
  allChars plain s = true -> plain c = false ->
  Str.includes (Str.toLowerCase s) (String c k) = false.
Proof.
  intros Hs Hc. induction s as [|a r IH]; [reflexivity|].
  cbn [allChars] in Hs. apply andb_true_iff in Hs. destruct Hs as [Ha Hr].
  cbn [Str.toLowerCase Str.includes String.prefix].
  rewrite (plain_lowerChar a Ha), (IH Hr), orb_false_r.
  destruct (ascii_dec c a) as [->|ne]; [congruence | reflexivity].
Qed.

Lemma blank_keywordFree (text : string) :
  Str.isBlank text = true -> keywordFree text.
Proof.
  intros H kw Hin. apply includes_false_iff.
  apply blank_plain in H.
  cbn in Hin.
  repeat (destruct Hin as [<-|Hin];
          [apply plain_no_occurrence; [exact H | reflexivity]|]).
  destruct Hin.
Qed.

(** C5.  A text in which no keyword of any trigger set occurs, an empty or
    a white-space text among them, is classified into no field; merging the
    empty classifier output keeps the seven fields of any profile and is the
    identity on a profile that satisfies the invariant; so a turn on such a
    text leaves the profile of a reachable state as it was. *)
Theorem no_keyword_leaves_profile_unchanged :
  (forall text : string,
     keywordFree text -> analyzeUserInput text = Partial.empty)
  /\ (forall text : string,
        Str.isBlank text = true -> analyzeUserInput text = Partial.empty)
  /\ (forall (p : UserProfile) (k : Key),
        In k fields -> get k (mergeProfile p Partial.empty) = get k p)
  /\ (forall p : UserProfile,
        WellFormed p -> mergeProfile p Partial.empty = p)
  /\ (forall (env : Env) (s : State),
        reachable s -> keywordFree (input s) ->
        userProfile (final (handleSubmit env s)) = userProfile s).
Proof.
  split; [exact keywordFree_empty_output|].
  split; [intros text H; apply keywordFree_empty_output, blank_keywordFree, H|].
  split.
  { intros p k Hk. rewrite mergeProfile_empty. destruct p.
    cbn in Hk. repeat (destruct Hk as [<-|Hk]; [reflexivity|]). destruct Hk. }
  split; [exact mergeProfile_empty_id|].
  intros env s Hs Hfree. rewrite handleSubmit_userProfile.
  destruct (ignored s); [reflexivity|].
  rewrite (keywordFree_empty_output _ Hfree).
  apply mergeProfile_empty_id, reachable_WellFormed, Hs.
Qed.

(** ** The end-to-end scenario *)

(** C6, as stated, fails: the scenario text contains none of [college],
    [university], [school], so the turn does not populate the colleges field
    and the completeness it stores is not 29. *)
Lemma scenario_colleges_not_populated :
  ~ (let p := userProfile (final (firstTurn sampleEnv 0 scenarioText)) in
     populated Kmajor p = true
     /\ populated Kcolleges p = true
     /\ completeness initialProfile = 0
     /\ completeness p = 29
     /\ selected (firstTurn sampleEnv 0 scenarioText) = Some collection).
Proof. vm_compute. intros (_ & H & _). discriminate H. Qed.

(** C6, amended.  From the empty profile, the turn on the scenario text
    populates the major field with the whole text and no other field, takes
    the completeness from 0 to 14 (1 of 7 fields), and selects
    [collection]. *)
Theorem scenario_populates_major_only (env : Env) (mounted : Z) :
  let t := firstTurn env mounted scenarioText in
  let p := userProfile (final t) in
  completeness (userProfile (initialState mounted)) = 0
  /\ major p = Some scenarioText
  /\ colleges p = None /\ essayPrompts p = None
  /\ extracurriculars p = None /\ classes p = None
  /\ hobbies p = None /\ awards p = None
  /\ populatedCount p = 1
  /\ completeness p = 14
  /\ selected t = Some collection.
Proof.
  intros t p. unfold p, t, firstTurn.
  rewrite handleSubmit_selected, handleSubmit_userProfile.
  vm_compute. repeat split.
Qed.

(** ** Attachments and the profile *)

Lemma ignored_blank (s : State) :
  ignored s = true -> Str.isBlank (input s) = true.
Proof. unfold ignored. intros H. now apply andb_true_iff in H. Qed.

(** C10.  Two calls of [handleSubmit] on the same text and the same profile
    (one that satisfies the invariant, as every reachable one does) leave
    the same profile, hence the same completeness and the same stage,
    whatever files are attached and whatever the services answer. *)
Theorem profile_independent_of_attachments
    (env1 env2 : Env) (s1 s2 : State) :
  WellFormed (userProfile s1) ->
  userProfile s1 = userProfile s2 ->
  input s1 = input s2 ->
  let t1 := handleSubmit env1 s1 in
  let t2 := handleSubmit env2 s2 in
  userProfile (final t1) = userProfile (final t2)
  /\ completeness (userProfile (final t1))
     = completeness (userProfile (final t2))
  /\ getConversationStage (userProfile (final t1))
     = getConversationStage (userProfile (final t2))
  /\ (forall st1 st2 : Stage,
        selected t1 = Some st1 -> selected t2 = Some st2 -> st1 = st2).
Proof.
  intros Hwf Hp Hi t1 t2.
  assert (E : userProfile (final t1) = userProfile (final t2)).
  { unfold t1, t2. rewrite !handleSubmit_userProfile, <- Hp, <- Hi.
    destruct (ignored s1) eqn:E1, (ignored s2) eqn:E2; try reflexivity.
    - apply ignored_blank in E1.
      rewrite (keywordFree_empty_output _ (blank_keywordFree _ E1)).
      symmetry. now apply mergeProfile_empty_id.
    - apply ignored_blank in E2. rewrite <- Hi in E2.
      rewrite (keywordFree_empty_output _ (blank_keywordFree _ E2)).
      now apply mergeProfile_empty_id. }
  split; [exact E|]. split; [now rewrite E|]. split; [now rewrite E|].
  intros st1 st2. unfold t1, t2. rewrite !handleSubmit_selected.
  fold t1 t2. rewrite E.
  destruct (ignored s1), (ignored s2); congruence.
Qed.

(** ** The streamed reply *)

Lemma onChunk_slot (aid : string) (slot : nat) (r x : string) (s : State) :
  holds aid slot s ->
  holds aid slot (snd (onChunk aid (r, s) x))
  /\ contentAt slot (snd (onChunk aid (r, s) x)) = Some (r ++ x)
  /\ fst (onChunk aid (r, s) x) = r ++ x.
Proof.
  intros [m [Hm Hid]]. unfold holds, contentAt, onChunk.
  cbn [fst snd setMessages messages Str.cat String.concat].
  rewrite nth_error_map, Hm. cbn [option_map].
  rewrite Hid, String.eqb_refl. cbn [content id withContent].
  repeat split. exists (withContent m (r ++ x)). split; [reflexivity | exact Hid].
Qed.

Lemma scan_contents (aid : string) (slot : nat) (l : list string) :
  forall (r : string) (s : State),
    holds aid slot s ->
    map (contentAt slot) (map snd (scan (onChunk aid) (r, s) l))
    = map (fun n => Some (r ++ Str.cat (firstn n l))) (seq 1 (List.length l)).
Proof.
  induction l as [|x l IH]; intros r s H; [reflexivity|].
  destruct (onChunk_slot aid slot r x s H) as (H' & Hc & Hr).
  cbn [scan map List.length seq].
  destruct (onChunk aid (r, s) x) as [r' s'] eqn:E.
  cbn [fst snd] in *. subst r'.
  rewrite (IH (r ++ x) s' H'), Hc, <- (seq_shift (List.length l) 1), map_map.
  f_equal. apply map_ext. intros n.
  change (firstn (S n) (x :: l)) with (x :: firstn n l).
  now rewrite cat_cons, append_assoc.
Qed.

Lemma scan_last_fold {A B : Type} (f : A -> B -> A) (l : list B) (a : A) :
  last (scan f a l) a = fold_left f l a.
Proof. rewrite scan_last. now destruct l. Qed.

Lemma fold_content (aid : string) (slot : nat) (l : list string) :
  forall (r : string) (s : State),
    holds aid slot s -> contentAt slot s = Some r ->
    contentAt slot (snd (fold_left (onChunk aid) l (r, s)))
    = Some (r ++ Str.cat l).
Proof.
  induction l as [|x l IH]; intros r s H Hr.
  - cbn. now rewrite append_nil_r.
  - destruct (onChunk_slot aid slot r x s H) as (H' & Hc & Hf).
    cbn [fold_left].
    destruct (onChunk aid (r, s) x) as [r' s'] eqn:E.
    cbn [fst snd] in *. subst r'.
    now rewrite (IH (r ++ x) s' H' Hc), cat_cons, append_assoc.
Qed.

Lemma cat_firstn_succ (l : list string) (n : nat) (x : string) :
  nth_error l n = Some x ->
  Str.cat (firstn (S n) l) = Str.cat (firstn n l) ++ x.
Proof.
  revert n. induction l as [|y l IH]; intros [|n] H; try discriminate.
  - inversion H. cbn [firstn]. now rewrite cat_cons, append_nil_r.
  - cbn [nth_error] in H. change (firstn (S (S n)) (y :: l)) with (y :: firstn (S n) l).
    change (firstn (S n) (y :: l)) with (y :: firstn n l).
    now rewrite !cat_cons, (IH n H), append_assoc.
Qed.

(** C7.  In a turn that [handleSubmit] carries out, the assistant message
    enters the conversation with empty content, right after the user
    message; the contents published for it after the chunks are, in order,
    the concatenations of the first 1, 2, ..., n chunks of the stream; each
    published content is the previous one followed by the chunk that
    arrived; and the turn ends on the concatenation of all chunks. *)
Theorem streamed_content_is_concatenation (env : Env) (s : State) :
  ignored s = false ->
  let t := handleSubmit env s in
  let slot := S (List.length (messages s)) in
  exists (prompt : string) (s3 : State),
    sent t = Some prompt
    /\ opened t = Some s3
    /\ contentAt slot s3 = Some ""
    /\ let cs := chunks (streamText env prompt) in
       let contents := map (contentAt slot) (published t) in
       contents
       = map (fun n => Some (Str.cat (firstn n cs))) (seq 1 (List.length cs))
       /\ (forall (n : nat) (a b : string),
             nth_error (Some "" :: contents) n = Some (Some a) ->
             nth_error (Some "" :: contents) (S n) = Some (Some b) ->
             exists chunk, nth_error cs n = Some chunk /\ b = a ++ chunk)
       /\ contentAt slot (final t) = Some (Str.cat cs).
Proof.
  intros Hg t slot. unfold t, handleSubmit. unfold ignored in Hg. rewrite Hg.
  cbn [sent opened published final].
  match goal with
  | |- exists p s3, Some ?P = Some p /\ Some ?S3 = Some s3 /\ _ =>
      exists P, S3; set (prompt := P); set (s3 := S3)
  end.
  assert (Hslot : holds (Str.ofNumber (assistantClock env + 1)) slot s3).
  { unfold holds, s3, slot.
    cbn [setMessages messages setIsLoading setAttachedFiles setInput
         setUserProfile].
    rewrite nth_error_app2; rewrite length_app; cbn [List.length]; [|lia].
    replace (S (List.length (messages s)) - (List.length (messages s) + 1))%nat
      with 0%nat by lia.
    eexists; split; reflexivity. }
  assert (H0 : contentAt slot s3 = Some "").
  { destruct Hslot as [m [Hm _]]. unfold contentAt.
    unfold s3, slot in Hm |- *.
    cbn [setMessages messages setIsLoading setAttachedFiles setInput
         setUserProfile] in Hm |- *.
    rewrite nth_error_app2 in Hm |- *; rewrite length_app in *;
      cbn [List.length] in *; try lia.
    replace (S (List.length (messages s)) - (List.length (messages s) + 1))%nat
      with 0%nat in * by lia.
    reflexivity. }
  split; [reflexivity|]. split; [reflexivity|]. split; [exact H0|].
  cbv zeta. cbn [id].
  set (cs := chunks (streamText env prompt)).
  set (aid := Str.ofNumber (assistantClock env + 1)) in *.
  assert (Hc := scan_contents aid slot cs "" s3 Hslot).
  cbn [String.append] in Hc.
  split; [exact Hc|]. split.
  - intros n a b Ha Hb. rewrite Hc in Ha, Hb.
    change (Some "" :: map (fun n => Some (Str.cat (firstn n cs)))
                         (seq 1 (List.length cs)))
      with (map (fun n => Some (Str.cat (firstn n cs)))
              (seq 0 (S (List.length cs)))) in Ha, Hb.
    rewrite nth_error_map in Ha, Hb.
    destruct (nth_error (seq 0 (S (List.length cs))) (S n)) as [j|] eqn:Ej;
      [|discriminate].
    assert (Hlt : (S n < List.length (seq 0 (S (List.length cs))))%nat)
      by (apply nth_error_Some; congruence).
    rewrite length_seq in Hlt.
    rewrite nth_error_seq in Ej, Ha.
    destruct (Nat.ltb_spec (S n) (S (List.length cs))); [|lia].
    destruct (Nat.ltb_spec n (S (List.length cs))); [|lia].
    cbn in Ej, Ha, Hb. inversion Ej; subst j. inversion Ha; subst a.
    inversion Hb; subst b.
    destruct (nth_error cs n) as [chunk|] eqn:En.
    + exists chunk. split; [reflexivity|]. now apply cat_firstn_succ.
    + apply nth_error_None in En. lia.
  - match goal with
    | |- contentAt slot (setIsLoading false (if ?b then toast ?tt ?x else ?x)) = _ =>
        transitivity (contentAt slot x); [destruct b; reflexivity|]
    end.
    fold aid. rewrite scan_last_fold.
    now rewrite (fold_content aid slot cs "" s3 Hslot H0).
Qed.

(** ** Attachments *)

Lemma attachmentStep_block (env : Env) (acc : string) (file : File) :
  attachmentStep env acc file = acc ++ blockOf env file.
Proof.
  unfold attachmentStep, blockOf.
  destruct (extractFromBlob env file); reflexivity.
Qed.

Lemma attachment_loop (env : Env) (files : list File) (acc : string) :
  fold_left (attachmentStep env) files acc
  = acc ++ Str.cat (map (blockOf env) files).
Proof.
  revert acc. induction files as [|f files IH]; intros acc.
  - cbn. now rewrite append_nil_r.
  - cbn [fold_left map].
    now rewrite IH, attachmentStep_block, cat_cons, append_assoc.
Qed.

Lemma resolveAttachments_blocks (env : Env) (files : list File) :
  resolveAttachments env files = Str.cat (map (blockOf env) files).
Proof.
  unfold resolveAttachments. destruct files as [|f files]; [reflexivity|].
  cbn [List.length Nat.ltb Nat.leb]. now rewrite attachment_loop.
Qed.

Lemma endsWith_suffix (s k : string) :
  endsWith s k = true -> exists pre, s = pre ++ k.
Proof.
  induction s as [|c s IH]; cbn [endsWith]; intros H;
    apply orb_true_iff in H; destruct H as [H|H].
  - apply String.eqb_eq in H. now exists "".
  - discriminate.
  - apply String.eqb_eq in H. now exists "".
  - destruct (IH H) as [pre E]. exists (String c pre). simpl. now rewrite E.
Qed.

Lemma cat_ends (front : list string) (lit marker input ctx : string) :
  endsWith lit marker = true ->
  exists pre,
    Str.cat (front ++ [lit; input; ctx]) = pre ++ marker ++ input ++ ctx.
Proof.
  intros H. destruct (endsWith_suffix lit marker H) as [pre0 ->].
  exists (Str.cat front ++ pre0).
  rewrite cat_app, !cat_cons. cbn [Str.cat String.concat].
  now rewrite append_nil_r, !append_assoc.
Qed.

(** Every prompt ends on the marker, the message and the attachment
    context. *)
Lemma systemPrompt_tail (stage : Stage) (p : UserProfile)
    (input ctx : string) :
  exists pre,
    systemPrompt stage p input ctx = pre ++ messageMarker ++ input ++ ctx.
Proof.
  unfold systemPrompt, collectionPrompt, generationPrompt, refinementPrompt.
  destruct stage;
    match goal with
    | |- exists pre, Str.cat [?a; ?b; ?lit; ?i; ?c] = _ =>
        exact (cat_ends [a; b] lit messageMarker i c eq_refl)
    | |- exists pre, Str.cat [?a; ?b; ?x; ?y; ?lit; ?i; ?c] = _ =>
        exact (cat_ends [a; b; x; y] lit messageMarker i c eq_refl)
    end.
Qed.

(** C8.  The attachment context of a turn is the sequence of the blocks of
    its attachments in the order of submission, one block per attachment: a
    labelled content block where extraction succeeds, a labelled placeholder
    where it fails.  Whatever fails, a turn with attachments merges the
    message into the profile and sends a prompt that ends on the message
    followed by all the blocks. *)
Theorem attachments_isolated (env : Env) (s : State) :
  attachedFiles s <> [] ->
  let files := attachedFiles s in
  let t := handleSubmit env s in
  resolveAttachments env files = Str.cat (map (blockOf env) files)
  /\ List.length (map (blockOf env) files) = List.length files
  /\ (exists prompt pre,
        sent t = Some prompt
        /\ prompt
           = pre ++ messageMarker ++ input s
             ++ Str.cat (map (blockOf env) files))
  /\ userProfile (final t)
     = mergeProfile (userProfile s) (analyzeUserInput (input s)).
Proof.
  intros Hne files t.
  assert (Hg : ignored s = false).
  { unfold ignored. destruct (attachedFiles s); [congruence|].
    apply andb_false_r. }
  split; [apply resolveAttachments_blocks|].
  split; [apply length_map|].
  unfold t. rewrite handleSubmit_sent, handleSubmit_userProfile, Hg.
  split; [|reflexivity].
  cbv zeta. fold files. rewrite resolveAttachments_blocks.
  match goal with
  | |- exists prompt pre, Some (systemPrompt ?st ?p ?i ?c) = _ /\ _ =>
      destruct (systemPrompt_tail st p i c) as [pre E];
      exists (systemPrompt st p i c), pre
  end.
  split; [reflexivity | exact E].
Qed.

(** ** The prompt *)

Lemma orElse_text (v : option string) :
  orElse v "Not specified"
  = shown (match v with Some s => s | None => "" end).
Proof. destruct v as [[|? ?]|]; reflexivity. Qed.

Lemma orElse_seq (sep : string) (v : option (list string)) :
  orElse (option_map (Str.join sep) v) "Not specified"
  = shown (Str.join sep (fragments v)).
Proof.
  destruct v as [l|]; [|reflexivity]. cbn [option_map orElse fragments].
  destruct (Str.join sep l); reflexivity.
Qed.

Ltac normalize_appends :=
  cbn; repeat (progress (rewrite ?append_assoc; cbn)); reflexivity.

(** The lines of a snapshot, whatever the printed values are. *)
Lemma context_shape (m c e x cl h a n st : string) :
  let ctx :=
    Str.cat
     [ "
Current User Profile:
- Major: ";
       m;
       "
- Target Colleges: ";
       c;
       "
- Essay Prompts: ";
       e;
       "
- Extracurriculars: ";
       x;
       "
- Classes: ";
       cl;
       "
- Hobbies: ";
       h;
       "
- Awards: ";
       a;
       "
- Profile Completeness: ";
       n;
       "%
- Conversation Stage: ";
       st;
       "
" ] in
  Str.Occurs (Str.LF ++ "- Major: " ++ m ++ Str.LF) ctx
  /\ Str.Occurs (Str.LF ++ "- Target Colleges: " ++ c ++ Str.LF) ctx
  /\ Str.Occurs (Str.LF ++ "- Essay Prompts: " ++ e ++ Str.LF) ctx
  /\ Str.Occurs (Str.LF ++ "- Extracurriculars: " ++ x ++ Str.LF) ctx
  /\ Str.Occurs (Str.LF ++ "- Classes: " ++ cl ++ Str.LF) ctx
  /\ Str.Occurs (Str.LF ++ "- Hobbies: " ++ h ++ Str.LF) ctx
  /\ Str.Occurs (Str.LF ++ "- Awards: " ++ a ++ Str.LF) ctx
  /\ Str.Occurs (Str.LF ++ "- Profile Completeness: " ++ (n ++ "%") ++ Str.LF) ctx
  /\ Str.Occurs (Str.LF ++ "- Conversation Stage: " ++ st ++ Str.LF) ctx.
Proof.
  intros ctx. unfold ctx.
  repeat match goal with |- _ /\ _ => split end.
  { exists (Str.cat [Str.LF; "Current User Profile:"]).
    eexists.
    normalize_appends. }
  { exists (Str.cat [Str.LF; "Current User Profile:"; Str.LF; "- Major: "; m]).
    eexists.
    normalize_appends. }
  { exists (Str.cat [Str.LF; "Current User Profile:"; Str.LF; "- Major: "; m;
                     Str.LF; "- Target Colleges: "; c]).
    eexists.
    normalize_appends. }
  { exists (Str.cat [Str.LF; "Current User Profile:"; Str.LF; "- Major: "; m;
                     Str.LF; "- Target Colleges: "; c; Str.LF;
                     "- Essay Prompts: "; e]).
    eexists.
    normalize_appends. }
  { exists (Str.cat [Str.LF; "Current User Profile:"; Str.LF; "- Major: "; m;
                     Str.LF; "- Target Colleges: "; c; Str.LF;
                     "- Essay Prompts: "; e; Str.LF; "- Extracurriculars: ";
                     x]).
    eexists.
    normalize_appends. }
  { exists (Str.cat [Str.LF; "Current User Profile:"; Str.LF; "- Major: "; m;
                     Str.LF; "- Target Colleges: "; c; Str.LF;
                     "- Essay Prompts: "; e; Str.LF; "- Extracurriculars: ";
                     x; Str.LF; "- Classes: "; cl]).
    eexists.
    normalize_appends. }
  { exists (Str.cat [Str.LF; "Current User Profile:"; Str.LF; "- Major: "; m;
                     Str.LF; "- Target Colleges: "; c; Str.LF;
                     "- Essay Prompts: "; e; Str.LF; "- Extracurriculars: ";
                     x; Str.LF; "- Classes: "; cl; Str.LF; "- Hobbies: "; h]).
    eexists.
    normalize_appends. }
  { exists (Str.cat [Str.LF; "Current User Profile:"; Str.LF; "- Major: "; m;
                     Str.LF; "- Target Colleges: "; c; Str.LF;
                     "- Essay Prompts: "; e; Str.LF; "- Extracurriculars: ";
                     x; Str.LF; "- Classes: "; cl; Str.LF; "- Hobbies: "; h;
                     Str.LF; "- Awards: "; a]).
    eexists.
    normalize_appends. }
  { exists (Str.cat [Str.LF; "Current User Profile:"; Str.LF; "- Major: "; m;
                     Str.LF; "- Target Colleges: "; c; Str.LF;
                     "- Essay Prompts: "; e; Str.LF; "- Extracurriculars: ";
                     x; Str.LF; "- Classes: "; cl; Str.LF; "- Hobbies: "; h;
                     Str.LF; "- Awards: "; a; Str.LF;
                     "- Profile Completeness: "; n; "%"]).
    eexists.
    normalize_appends. }
Qed.

Lemma snapshot_lines (p : UserProfile) (stage : Stage) :
  (forall k, Str.Occurs (snapshotLine k p) (profileContext p stage))
  /\ Str.Occurs (stageLine stage) (profileContext p stage).
Proof.
  unfold profileContext. rewrite orElse_text, !orElse_seq.
  destruct (context_shape (rendered Kmajor p) (rendered Kcolleges p)
              (rendered KessayPrompts p) (rendered Kextracurriculars p)
              (rendered Kclasses p) (rendered Khobbies p)
              (rendered Kawards p) (Str.ofNumber (completeness p))
              (stageName stage))
    as (Hm & Hc & He & Hx & Hcl & Hh & Ha & Hn & Hst).
  split; [intros k; destruct k; assumption | assumption].
Qed.

Lemma profileContext_in_prompt (stage : Stage) (p : UserProfile)
    (input ctx : string) :
  Str.Occurs (profileContext p stage) (systemPrompt stage p input ctx).
Proof.
  unfold systemPrompt, collectionPrompt, generationPrompt, refinementPrompt.
  destruct stage;
    (eapply Occurs_cat; [right; left; reflexivity | apply Occurs_refl]).
Qed.

Lemma unpopulated_rendered (k : Key) (p : UserProfile) :
  In k fields -> populated k p = false -> rendered k p = "Not specified".
Proof.
  intros Hk. destruct p as [m c e x cl h a n].
  cbn in Hk.
  repeat (destruct Hk as [<-|Hk];
          [cbn;
           match goal with
           | |- populatedText ?v = false -> _ => destruct v as [[|? ?]|]
           | |- populatedSeq ?v = false -> _ => destruct v as [[|? ?]|]
           end; cbn; congruence|]).
  destruct Hk.
Qed.

Lemma generation_sections (p : UserProfile) (input ctx : string) :
  Forall (fun section => Str.Occurs section
                           (systemPrompt generation p input ctx))
    generationSections.
Proof.
  unfold systemPrompt, generationPrompt, generationSections.
  repeat constructor;
    (eapply Occurs_cat;
     [do 4 right; left; reflexivity
     | apply includes_iff; vm_compute; reflexivity]).
Qed.

(** C9.  For every stage, profile, message and attachment context, the
    prompt contains one line of the snapshot for each of the seven fields
    and for the completeness percentage, a field that is not populated being
    printed as [Not specified]; it contains the line of the selected stage;
    it ends on the message of the user followed by the attachment context;
    and the prompt of the [generation] stage contains the six named
    sections. *)
Theorem prompt_contents (stage : Stage) (p : UserProfile)
    (input ctx : string) :
  let prompt := systemPrompt stage p input ctx in
  (forall k : Key, Str.Occurs (snapshotLine k p) prompt)
  /\ (forall k : Key,
        In k fields -> populated k p = false ->
        rendered k p = "Not specified")
  /\ Str.Occurs (stageLine stage) prompt
  /\ (exists pre, prompt = pre ++ messageMarker ++ input ++ ctx)
  /\ (stage = generation ->
      Forall (fun section => Str.Occurs section prompt) generationSections).
Proof.
  intros prompt. unfold prompt.
  destruct (snapshot_lines p stage) as [Hlines Hstage].
  assert (Hctx := profileContext_in_prompt stage p input ctx).
  split; [intros k; eapply Occurs_trans; [apply Hlines | exact Hctx]|].
  split; [exact (fun k => unpopulated_rendered k p)|].
  split; [eapply Occurs_trans; [exact Hstage | exact Hctx]|].
  split; [apply systemPrompt_tail|].
  intros ->. apply generation_sections.
Qed.

(** ** The properties at concrete inputs *)

(** The sample states are states of the component. *)
Lemma typedWithFiles_reachable : reachable typedWithFiles.
Proof. apply reach_attach, reach_type, reach_mount. Qed.

Lemma greeted_reachable : reachable greeted.
Proof. apply reach_type, reach_submit, typedWithFiles_reachable. Qed.

(** After the sample turn the stored completeness is 29, one of the scores. *)
Lemma completeness_is_rounded_share_witness :
  In (completeness (userProfile greeted)) scores
  /\ completeness (userProfile greeted) = 29.
Proof.
  destruct completeness_is_rounded_share as (_ & _ & H & _).
  split; [apply (H greeted greeted_reachable) | reflexivity].
Defined.

(** The two sides of the threshold. *)
Lemma stage_threshold_witness :
  getConversationStage (scored 59) = collection
  /\ getConversationStage (scored 60) = generation.
Proof.
  split.
  - apply (stage_threshold (scored 59)); cbn; lia.
  - apply (stage_threshold (scored 60)); cbn; lia.
Defined.

(** The scenario message does not lower the completeness of the empty
    profile. *)
Lemma merge_never_lowers_completeness_witness :
  completeness initialProfile
  <= completeness (mergeProfile initialProfile (analyzeUserInput scenarioText)).
Proof.
  apply (merge_never_lowers_completeness initialProfile
           (analyzeUserInput scenarioText)).
  reflexivity.
Defined.

(** A greeting leaves the profile of the sample conversation as it was, and
    two spaces are classified into nothing. *)
Lemma no_keyword_leaves_profile_unchanged_witness :
  userProfile (final (handleSubmit failingEnv greeted)) = userProfile greeted
  /\ analyzeUserInput "  " = Partial.empty.
Proof.
  destruct no_keyword_leaves_profile_unchanged as (_ & Hblank & _ & _ & Hturn).
  split.
  - apply Hturn; [exact greeted_reachable|].
    intros kw Hin. apply includes_false_iff. cbn in Hin.
    repeat (destruct Hin as [<-|Hin]; [vm_compute; reflexivity|]).
    destruct Hin.
  - apply Hblank. reflexivity.
Defined.

(** The three chunks of the sample reply, as they are published. *)
Lemma streamed_content_is_concatenation_witness :
  map (contentAt 2) (published (handleSubmit sampleEnv typed))
  = [Some "Hel"; Some "Hello "; Some "Hello World"]
  /\ contentAt 2 (final (handleSubmit sampleEnv typed)) = Some "Hello World".
Proof.
  destruct (streamed_content_is_concatenation sampleEnv typed eq_refl)
    as (prompt & s3 & _ & _ & _ & Hc & _ & Hf).
  split; (etransitivity; [first [exact Hc | exact Hf] | reflexivity]).
Defined.

(** Three attachments, the second failing: two content blocks and one
    placeholder, in the order of submission. *)
Lemma attachments_isolated_witness :
  resolveAttachments sampleEnv sampleFiles
  = Str.cat [Str.LF; Str.LF; "Content from a.txt:"; Str.LF; "AAA";
             Str.LF; Str.LF; "Note: Could not process b.pdf";
             Str.LF; Str.LF; "Content from c.txt:"; Str.LF; "CCC"].
Proof.
  destruct (attachments_isolated sampleEnv typedWithFiles) as (H & _).
  - discriminate.
  - etransitivity; [exact H | reflexivity].
Defined.

(** The empty profile prints its major as [Not specified]; a generation
    prompt carries the six sections. *)
Lemma prompt_contents_witness :
  rendered Kmajor initialProfile = "Not specified"
  /\ Forall (fun section =>
               Str.Occurs section
                 (systemPrompt generation (scored 71) "What next?" ""))
       generationSections.
Proof.
  split.
  - apply (prompt_contents collection initialProfile "" "");
      [cbn; tauto | reflexivity].
  - apply (prompt_contents generation (scored 71) "What next?" "").
    reflexivity.
Defined.

(** The sample message with three attachments and working services, and
    without attachments and with failing services: the same profile. *)
Lemma profile_independent_of_attachments_witness :
  userProfile (final (handleSubmit sampleEnv typedWithFiles))
  = userProfile (final (handleSubmit failingEnv typed)).
Proof.
  apply (profile_independent_of_attachments sampleEnv failingEnv
           typedWithFiles typed); reflexivity.
Defined.

(** * The rest of the component *)

(** ** Attaching and detaching files *)

(** [prev.filter((_, i) => i !== index)], written with the positions. *)
Definition filterByIndex {A : Type} (index : nat) (l : list A) : list A :=
  map snd
    (filter (fun entry => negb (fst entry =? index)%nat)
       (combine (seq 0 (List.length l)) l)).

Lemma removeAt_split {A : Type} (index : nat) (l : list A) :
  removeAt index l = (firstn index l ++ skipn (S index) l)%list.
Proof.
  revert index. induction l as [|x l IH]; intros [|i]; try reflexivity.
  cbn [removeAt firstn skipn app]. now rewrite IH.
Qed.

Lemma filterByIndex_from {A : Type} (index start : nat) (l : list A) :
  map snd
    (filter (fun entry => negb (fst entry =? start + index)%nat)
       (combine (seq start (List.length l)) l))
  = removeAt index l.
Proof.
  revert index start. induction l as [|x l IH]; intros index start.
  - now destruct index.
  - cbn [List.length seq combine filter fst].
    destruct index as [|i].
    + rewrite Nat.add_0_r, Nat.eqb_refl. cbn [negb removeAt].
      clear IH. generalize (Nat.lt_succ_diag_r start).
      generalize (S start) as from. revert start.
      induction l as [|y l IHl]; intros start from Hlt; [reflexivity|].
      cbn [List.length seq combine filter fst].
      destruct (Nat.eqb_spec from start) as [E|_]; [lia|].
      cbn [negb map snd]. f_equal. apply IHl. lia.
    + destruct (Nat.eqb_spec start (start + S i)) as [E|_]; [lia|].
      cbn [negb map snd removeAt]. f_equal.
      replace (start + S i)%nat with (S start + i)%nat by lia. apply IH.
Qed.

Lemma removeAt_filterByIndex {A : Type} (index : nat) (l : list A) :
  removeAt index l = filterByIndex index l.
Proof. symmetry. apply (filterByIndex_from index 0 l). Qed.

Lemma removeAt_beyond {A : Type} (index : nat) (l : list A) :
  (List.length l <= index)%nat -> removeAt index l = l.
Proof.
  intros H. rewrite removeAt_split, firstn_all2 by exact H.
  rewrite skipn_all2 by lia. apply app_nil_r.
Qed.

Lemma removeAt_app_r {A : Type} (i : nat) (l more : list A) :
  removeAt (List.length l + i) (l ++ more) = (l ++ removeAt i more)%list.
Proof.
  induction l as [|x l IH]; [reflexivity|].
  cbn [List.length Nat.add app removeAt]. now rewrite IH.
Qed.

Lemma setAttachedFiles_id (s : State) :
  setAttachedFiles (fun l => l) s = s.
Proof. now destruct s. Qed.

(** X1.  Attaching an empty selection changes nothing.  Attaching files puts
    them after the ones already attached, in their order, and raises one
    notification that counts them; the conversation, the text being typed,
    the loading flag and the profile stay as they are; two selections in a
    row add up in the order they were made. *)
Theorem handleFileAttach_appends (files : list File) (s : State) :
  handleFileAttach [] s = s
  /\ attachedFiles (handleFileAttach files s)
     = (attachedFiles s ++ files)%list
  /\ toasts (handleFileAttach files s)
     = (toasts s
        ++ match files with
           | [] => []
           | _ =>
               [ {| title := "Files attached";
                    description :=
                      Str.ofNumber (Z.of_nat (List.length files))
                      ++ " file(s) ready to upload";
                    destructive := false |} ]
           end)%list
  /\ messages (handleFileAttach files s) = messages s
  /\ input (handleFileAttach files s) = input s
  /\ isLoading (handleFileAttach files s) = isLoading s
  /\ userProfile (handleFileAttach files s) = userProfile s
  /\ (forall more : list File,
        attachedFiles (handleFileAttach more (handleFileAttach files s))
        = (attachedFiles s ++ files ++ more)%list).
Proof.
  assert (H : forall fs st,
             attachedFiles (handleFileAttach fs st)
             = (attachedFiles st ++ fs)%list).
  { intros fs st. destruct fs; cbn; [now rewrite app_nil_r | reflexivity]. }
  split; [reflexivity|]. split; [apply H|].
  split; [destruct files; cbn; [now rewrite app_nil_r | reflexivity]|].
  repeat (split; [destruct files; reflexivity|]).
  intros more. now rewrite !H, app_assoc.
Qed.

(** X2.  Detaching at [index] keeps exactly the files at the other
    positions, in order: the list is the part before [index] followed by the
    part after it.  An index past the end changes nothing; an index inside
    shortens the list by one.  Nothing else in the state changes. *)
Theorem removeAttachment_drops_one (index : nat) (s : State) :
  let files := attachedFiles s in
  let s' := removeAttachment index s in
  attachedFiles s' = filterByIndex index files
  /\ attachedFiles s' = (firstn index files ++ skipn (S index) files)%list
  /\ ((List.length files <= index)%nat -> s' = s)
  /\ ((index < List.length files)%nat ->
      S (List.length (attachedFiles s')) = List.length files)
  /\ (forall i : nat,
        nth_error (attachedFiles s') i
        = if (i <? index)%nat then nth_error files i
          else nth_error files (S i))
  /\ messages s' = messages s /\ input s' = input s
  /\ isLoading s' = isLoading s /\ userProfile s' = userProfile s
  /\ toasts s' = toasts s.
Proof.
  intros files s'. unfold s', removeAttachment.
  cbn [attachedFiles setAttachedFiles messages input isLoading userProfile
       toasts]. fold files.
  split; [apply removeAt_filterByIndex|].
  split; [apply removeAt_split|].
  split.
  { intros H. rewrite <- (setAttachedFiles_id s) at 2.
    unfold setAttachedFiles. fold files. now rewrite (removeAt_beyond _ _ H). }
  split.
  { intros H. rewrite removeAt_split, length_app, length_firstn, length_skipn.
    lia. }
  split; [|repeat split].
  intros i. rewrite removeAt_split.
  destruct (Nat.ltb_spec i index) as [Hlt|Hge].
  - destruct (Nat.le_gt_cases (List.length files) i) as [Hout|Hin].
    + rewrite (proj2 (nth_error_None files i) Hout).
      apply nth_error_None. rewrite length_app, length_firstn, length_skipn.
      lia.
    + rewrite nth_error_app1 by (rewrite length_firstn; lia).
      now rewrite nth_error_firstn, (proj2 (Nat.ltb_lt _ _) Hlt).
  - destruct (Nat.le_gt_cases (List.length files) index) as [Hout|Hin].
    + rewrite firstn_all2, skipn_all2, app_nil_r by lia.
      rewrite (proj2 (nth_error_None files i)) by lia.
      symmetry. apply nth_error_None. lia.
    + rewrite nth_error_app2 by (rewrite length_firstn; lia).
      rewrite length_firstn, nth_error_skipn. f_equal. lia.
Qed.

(** X3.  Detaching one of the files that were just attached undoes that
    part of the selection and leaves the earlier attachments alone; a
    single file attached and detached again gives the list back. *)
Theorem attach_then_detach (more : list File) (i : nat) (s : State) :
  attachedFiles
    (removeAttachment (List.length (attachedFiles s) + i)
       (handleFileAttach more s))
  = (attachedFiles s ++ removeAt i more)%list
  /\ (forall file : File,
        attachedFiles
          (removeAttachment (List.length (attachedFiles s))
             (handleFileAttach [file] s))
        = attachedFiles s).
Proof.
  assert (H : forall fs st,
             attachedFiles (handleFileAttach fs st)
             = (attachedFiles st ++ fs)%list).
  { intros fs st. destruct fs; cbn; [now rewrite app_nil_r | reflexivity]. }
  split.
  - unfold removeAttachment. cbn [attachedFiles setAttachedFiles].
    rewrite H. apply removeAt_app_r.
  - intros file. unfold removeAttachment. cbn [attachedFiles setAttachedFiles].
    rewrite H. rewrite <- (Nat.add_0_r (List.length (attachedFiles s))).
    rewrite removeAt_app_r. apply app_nil_r.
Qed.

(** ** The pieces of a turn *)

(** The id of the assistant message of a turn. *)
Definition assistantId (env : Env) : string :=
  Str.ofNumber (assistantClock env + 1).

(** The user message of a turn. *)
Definition userMessageOf (env : Env) (s : State) : Message :=
  {| id := Str.ofNumber (userClock env); role := user; content := input s;
     timestamp := userClock env;
     attachments :=
       if (0 <? List.length (attachedFiles s))%nat
       then Some (attachedFiles s) else None |}.

(** The assistant message of a turn, as it enters the conversation. *)
Definition assistantMessageOf (env : Env) : Message :=
  {| id := assistantId env; role := assistant; content := "";
     timestamp := assistantClock env; attachments := None |}.

(** The profile a turn stores. *)
Definition updatedProfileOf (s : State) : UserProfile :=
  mergeProfile (userProfile s) (analyzeUserInput (input s)).

(** The prompt a turn sends and the answer of the generation service. *)
Definition turnPrompt (env : Env) (s : State) : string :=
  systemPrompt (getConversationStage (updatedProfileOf s))
    (updatedProfileOf s) (input s)
    (resolveAttachments env (attachedFiles s)).

Definition turnStream (env : Env) (s : State) : Stream :=
  streamText env (turnPrompt env s).

(** The state when the generation call starts. *)
Definition openedState (env : Env) (s : State) : State :=
  {| messages :=
       ((messages s ++ [userMessageOf env s]) ++ [assistantMessageOf env])%list;
     input := ""; isLoading := true; attachedFiles := [];
     userProfile := updatedProfileOf s; toasts := toasts s |}.

(** The notification of a failed generation. *)
Definition errorToast : Toast :=
  {| title := "Error";
     description := "Failed to generate response. Please try again.";
     destructive := true |}.

(** Two states differ in the conversation at most. *)
Definition sameCells (a b : State) : Prop :=
  input a = input b /\ isLoading a = isLoading b
  /\ attachedFiles a = attachedFiles b /\ userProfile a = userProfile b
  /\ toasts a = toasts b.


Lemma handleSubmit_processed (env : Env) (s : State) :
  ignored s = false ->
  let frames :=
    scan (onChunk (assistantId env)) ("", openedState env s)
      (chunks (turnStream env s)) in
  let s4 := snd (last frames ("", openedState env s)) in
  handleSubmit env s
  = {| sent := Some (turnPrompt env s);
       selected := Some (getConversationStage (updatedProfileOf s));
       opened := Some (openedState env s);
       published := map snd frames;
       final :=
         setIsLoading false
           (if rejected (turnStream env s) then toast errorToast s4 else s4)
    |}.
Proof.
  unfold ignored, handleSubmit. intros ->.
  unfold turnStream, turnPrompt, updatedProfileOf, openedState, assistantId,
    userMessageOf, assistantMessageOf, errorToast.
  cbv beta zeta iota delta
    [setMessages setIsLoading setAttachedFiles setInput setUserProfile
     messages input isLoading attachedFiles userProfile toasts id].
  reflexivity.
Qed.

Lemma sameCells_refl (a : State) : sameCells a a.
Proof. repeat split. Qed.

Lemma sameCells_trans (a b c : State) :
  sameCells a b -> sameCells b c -> sameCells a c.
Proof.
  unfold sameCells. intros (?&?&?&?&?) (?&?&?&?&?). repeat split; congruence.
Qed.

Lemma onChunk_sameCells (aid : string) (acc : string * State) (x : string) :
  sameCells (snd (onChunk aid acc x)) (snd acc).
Proof. repeat split. Qed.

Lemma fold_sameCells (aid : string) (l : list string) (acc : string * State) :
  sameCells (snd (fold_left (onChunk aid) l acc)) (snd acc).
Proof.
  revert acc. induction l as [|x l IH]; intros acc; [apply sameCells_refl|].
  cbn [fold_left]. eapply sameCells_trans; [apply IH|apply onChunk_sameCells].
Qed.


(** The callback changes contents only. *)
Lemma onChunk_map {B : Type} (g : Message -> B) (aid : string)
    (acc : string * State) (x : string) :
  (forall m c, g (withContent m c) = g m) ->
  map g (messages (snd (onChunk aid acc x))) = map g (messages (snd acc)).
Proof.
  intros Hg. unfold onChunk. cbn [snd setMessages messages].
  rewrite map_map. apply map_ext. intros m.
  destruct (String.eqb (id m) aid); [apply Hg | reflexivity].
Qed.

Lemma fold_map {B : Type} (g : Message -> B) (aid : string)
    (l : list string) (acc : string * State) :
  (forall m c, g (withContent m c) = g m) ->
  map g (messages (snd (fold_left (onChunk aid) l acc)))
  = map g (messages (snd acc)).
Proof.
  intros Hg. revert acc. induction l as [|x l IH]; intros acc; [reflexivity|].
  cbn [fold_left]. now rewrite IH, onChunk_map.
Qed.


(** The messages of the state a processed turn ends in, up to contents. *)
Lemma final_map {B : Type} (g : Message -> B) (env : Env) (s : State) :
  (forall m c, g (withContent m c) = g m) ->
  ignored s = false ->
  map g (messages (final (handleSubmit env s)))
  = (map g (messages s)
     ++ [g (userMessageOf env s); g (assistantMessageOf env)])%list.
Proof.
  intros Hg Hi. rewrite (handleSubmit_processed env s Hi). cbn [final].
  match goal with
  | |- map g (messages (setIsLoading false (if ?b then toast ?t ?x else ?x)))
       = _ =>
      transitivity (map g (messages x)); [destruct b; reflexivity|]
  end.
  rewrite scan_last_fold, fold_map by exact Hg.
  cbn [snd openedState messages]. now rewrite !map_app, <- app_assoc.
Qed.

Lemma final_sameCells (env : Env) (s : State) :
  ignored s = false ->
  sameCells
    (final (handleSubmit env s))
    (setIsLoading false
       (if rejected (turnStream env s)
        then toast errorToast (openedState env s) else openedState env s)).
Proof.
  intros Hi. rewrite (handleSubmit_processed env s Hi). cbn [final].
  rewrite scan_last_fold.
  destruct (fold_sameCells (assistantId env) (chunks (turnStream env s))
              ("", openedState env s)) as (H1 & H2 & H3 & H4 & H5).
  cbn [snd] in *.
  destruct (rejected (turnStream env s)); repeat split;
    cbn [setIsLoading toast input isLoading attachedFiles userProfile toasts];
    congruence.
Qed.

(** X4.  [handleSubmit] leaves the state exactly as it was if and only if
    nothing but white space is typed and nothing is attached; in that case
    and only then it sends no prompt.  Whenever the submit button is enabled
    a submission sends a prompt. *)
Theorem handleSubmit_noop_iff (env : Env) (s : State) :
  (ignored s = true <-> final (handleSubmit env s) = s)
  /\ (ignored s = true <-> sent (handleSubmit env s) = None)
  /\ (ignored s = true <-> published (handleSubmit env s) = []
                           /\ opened (handleSubmit env s) = None)
  /\ (submitDisabled s = false ->
      sent (handleSubmit env s) = Some (turnPrompt env s)).
Proof.
  destruct (ignored s) eqn:Hi.
  - rewrite (handleSubmit_ignored env s Hi). cbn [final sent published opened].
    repeat split; try congruence.
    unfold submitDisabled. unfold ignored in Hi. rewrite Hi, orb_true_r.
    discriminate.
  - assert (Hlen := final_map (fun _ => tt) env s (fun _ _ => eq_refl) Hi).
    apply (f_equal (@List.length unit)) in Hlen.
    rewrite length_app, !length_map in Hlen. cbn [List.length] in Hlen.
    rewrite (handleSubmit_processed env s Hi) in *. cbn [final sent opened
      published] in *.
    repeat split; try congruence; try discriminate.
    + intros E. rewrite E in Hlen. lia.
    + intros [_ E]. discriminate E.
Qed.



(** ** The conversation during a turn *)








Lemma fold_content_nonempty (aid : string) (slot : nat) (l : list string)
    (r : string) (s : State) :
  holds aid slot s -> l <> [] ->
  contentAt slot (snd (fold_left (onChunk aid) l (r, s)))
  = Some (r ++ Str.cat l).
Proof.
  intros H Hl. destruct l as [|x l]; [congruence|].
  destruct (onChunk_slot aid slot r x s H) as (H' & Hc & Hf).
  cbn [fold_left].
  destruct (onChunk aid (r, s) x) as [r' s'] eqn:E.
  cbn [fst snd] in *. subst r'.
  now rewrite (fold_content aid slot l (r ++ x) s' H' Hc), cat_cons,
    append_assoc.
Qed.

(** X8.  The callback of the stream looks messages up by id only: an
    earlier message that carries the id of the new assistant message ends
    the turn with the streamed reply as its content, whatever it held
    before. *)
Theorem same_id_is_overwritten (env : Env) (s : State) (i : nat)
    (m : Message) :
  ignored s = false ->
  nth_error (messages s) i = Some m ->
  id m = assistantId env ->
  chunks (turnStream env s) <> [] ->
  contentAt i (final (handleSubmit env s))
  = Some (Str.cat (chunks (turnStream env s))).
Proof.
  intros Hi Hm Hid Hcs. rewrite (handleSubmit_processed env s Hi).
  cbn [final].
  match goal with
  | |- contentAt i (setIsLoading false (if ?b then toast ?tt ?x else ?x)) = _ =>
      transitivity (contentAt i x); [destruct b; reflexivity|]
  end.
  rewrite scan_last_fold.
  rewrite (fold_content_nonempty (assistantId env) i _ "" _); [reflexivity| |exact Hcs].
  exists m. split; [|exact Hid].
  cbn [openedState messages].
  assert (Hlt : (i < List.length (messages s))%nat)
    by (apply nth_error_Some; congruence).
  rewrite nth_error_app1 by (rewrite length_app; lia).
  now rewrite nth_error_app1 by exact Hlt.
Qed.



(** ** The stage, the progress block and the number of populated fields *)

(** The number of check marks the progress grid shows. *)
Definition checkedCount (s : State) : Z :=
  Z.of_nat (List.length (filter snd (progressMarks s))).

Lemma isChecked_isCompleted (p : UserProfile) (k : Key) :
  isChecked (get k p) = isCompleted p k.
Proof. reflexivity. Qed.

Lemma checkedCount_populated (s : State) :
  checkedCount s = populatedCount (userProfile s).
Proof.
  unfold checkedCount, progressMarks, progressEntries. cbn [map fst snd].
  rewrite <- completed_count. unfold fields. cbn [filter snd].
  rewrite !isChecked_isCompleted.
  destruct (isCompleted (userProfile s) Kmajor),
    (isCompleted (userProfile s) Kcolleges),
    (isCompleted (userProfile s) KessayPrompts),
    (isCompleted (userProfile s) Kextracurriculars),
    (isCompleted (userProfile s) Kclasses),
    (isCompleted (userProfile s) Khobbies),
    (isCompleted (userProfile s) Kawards); reflexivity.
Qed.

Lemma percent_thresholds (n : nat) :
  (n <= 7)%nat ->
  (percent n >= 60 <-> (5 <= n)%nat) /\ (percent n > 0 <-> (1 <= n)%nat).
Proof.
  intros H. upto7 n; vm_compute; repeat split; intros; try lia; congruence.
Qed.

Lemma completeness_thresholds (p : UserProfile) :
  WellFormed p ->
  (completeness p >= 60 <-> 5 <= populatedCount p)
  /\ (completeness p > 0 <-> 1 <= populatedCount p).
Proof.
  intros H. rewrite H, calculateCompleteness_percent, <- completed_count.
  destruct (percent_thresholds _ (completed_le_7 p)) as [T60 T0].
  rewrite T60, T0. lia.
Qed.

Lemma stage_generation_iff (p : UserProfile) :
  getConversationStage p = generation <-> completeness p >= 60.
Proof.
  unfold getConversationStage.
  destruct (Z.ltb_spec (completeness p) 60) as [Hlt|Hge].
  - split; [discriminate | lia].
  - rewrite (proj2 (Z.geb_le _ _) Hge). split; [lia | reflexivity].
Qed.

Lemma stage_collection_iff (p : UserProfile) :
  getConversationStage p = collection <-> completeness p < 60.
Proof.
  unfold getConversationStage.
  destruct (Z.ltb_spec (completeness p) 60) as [Hlt|Hge].
  - split; [lia | reflexivity].
  - rewrite (proj2 (Z.geb_le _ _) Hge). split; [discriminate | lia].
Qed.

Lemma showsReady_iff (s : State) :
  showsReady s = true <-> completeness (userProfile s) >= 60.
Proof.
  unfold showsReady, showsProgress.
  rewrite andb_true_iff, Z.gtb_ltb, Z.ltb_lt, Z.geb_le. lia.
Qed.

(** X10.  On a profile whose stored completeness is the score of its
    fields, as in every reachable state, the stage is [generation] exactly
    when at least five of the seven fields are populated and [collection]
    exactly when at most four are; the completeness is positive exactly when
    some field is populated. *)
Theorem stage_by_populated_fields (p : UserProfile) :
  WellFormed p ->
  (getConversationStage p = generation <-> 5 <= populatedCount p)
  /\ (getConversationStage p = collection <-> populatedCount p <= 4)
  /\ (completeness p >= 60 <-> 5 <= populatedCount p)
  /\ (completeness p > 0 <-> 1 <= populatedCount p).
Proof.
  intros H. destruct (completeness_thresholds p H) as [H60 H0].
  rewrite stage_generation_iff, stage_collection_iff.
  split; [exact H60|]. split; [|split; [exact H60 | exact H0]].
  split; intros G.
  - destruct (Z_le_gt_dec (populatedCount p) 4); [assumption|].
    assert (completeness p >= 60) by (apply H60; lia). lia.
  - destruct (Z_lt_ge_dec (completeness p) 60); [assumption|].
    assert (5 <= populatedCount p) by (apply H60; lia). lia.
Qed.

(** X11.  In every reachable state the progress block agrees with the
    profile engine: it is rendered exactly when some field is checked, the
    banner that announces narrative generation shows exactly when at least
    five fields are checked, which is exactly when the stage of the profile
    is [generation], and the check marks are those of the fields that the
    completeness counts. *)
Theorem progress_block_consistent (s : State) :
  reachable s ->
  (showsProgress s = true <-> 1 <= checkedCount s)
  /\ (showsReady s = true <-> 5 <= checkedCount s)
  /\ (showsReady s = true
      <-> getConversationStage (userProfile s) = generation)
  /\ map snd (progressMarks s) = map (isCompleted (userProfile s)) fields
  /\ roundsHalfUp (100 * inject_Z (checkedCount s) / 7)
       (completeness (userProfile s)).
Proof.
  intros Hr. apply reachable_WellFormed in Hr.
  destruct (completeness_thresholds (userProfile s) Hr) as [H60 H0].
  rewrite checkedCount_populated, stage_generation_iff, showsReady_iff.
  split.
  { unfold showsProgress. rewrite <- H0, Z.gtb_ltb, Z.ltb_lt. lia. }
  split; [exact H60|]. split; [tauto|]. split; [reflexivity|].
  rewrite Hr. apply calculateCompleteness_roundsHalfUp.
Qed.

(** ** What a conversation never loses *)

(** One event of the component. *)
Inductive step : State -> State -> Prop :=
| step_type (s : State) (v : string) : step s (setInput v s)
| step_attach (s : State) (files : list File) :
    step s (handleFileAttach files s)
| step_detach (s : State) (index : nat) : step s (removeAttachment index s)
| step_submit (s : State) (env : Env) : step s (final (handleSubmit env s)).

(** Any number of events in a row. *)
Inductive steps : State -> State -> Prop :=
| steps_none (s : State) : steps s s
| steps_more (s s' s'' : State) : steps s s' -> step s' s'' -> steps s s''.

(** The six multi-valued fields. *)
Definition sequenceFields : list (UserProfile -> option (list string)) :=
  [colleges; essayPrompts; extracurriculars; classes; hobbies; awards].

(** [q] holds everything [p] holds: its fragments, in order, at the front
    of each sequence, every populated field still populated, and a
    completeness that is not lower. *)
Definition extends (p q : UserProfile) : Prop :=
  completeness p <= completeness q
  /\ (forall k, populated k p = true -> populated k q = true)
  /\ (forall field, In field sequenceFields ->
        exists more, fragments (field q) = (fragments (field p) ++ more)%list).

Lemma extends_refl (p : UserProfile) : extends p p.
Proof.
  repeat split; [lia | auto |].
  intros field _. exists []. now rewrite app_nil_r.
Qed.

Lemma extends_trans (p q r : UserProfile) :
  extends p q -> extends q r -> extends p r.
Proof.
  intros (H1 & H2 & H3) (G1 & G2 & G3). repeat split; [lia | auto |].
  intros field Hf. destruct (H3 field Hf) as [m1 E1].
  destruct (G3 field Hf) as [m2 E2]. exists (m1 ++ m2)%list.
  now rewrite E2, E1, app_assoc.
Qed.

Lemma extends_merge (p : UserProfile) (e : Partial.t) :
  WellFormed p -> extends p (mergeProfile p e).
Proof.
  intros H. split; [rewrite H; apply mergeProfile_raises|].
  split; [intros k; apply mergeProfile_populated|].
  destruct (mergeProfile_fields p e) as (_ & Hc & He & Hx & Hcl & Hh & Ha).
  intros field Hf. cbn in Hf.
  destruct Hf as [<-|[<-|[<-|[<-|[<-|[<-|[]]]]]]];
    eexists;
    match goal with
    | E : ?f (mergeProfile p e) = _ |- fragments (?f (mergeProfile p e)) = _ =>
        rewrite E, mergeSeq_fragments; reflexivity
    end.
Qed.

Lemma step_extends (s s' : State) :
  WellFormed (userProfile s) -> step s s' ->
  WellFormed (userProfile s') /\ extends (userProfile s) (userProfile s').
Proof.
  intros H Hstep. revert H.
  destruct Hstep as [x v | x files | x index | x env]; intros H.
  - split; [exact H | apply extends_refl].
  - rewrite handleFileAttach_userProfile.
    split; [exact H | apply extends_refl].
  - split; [exact H | apply extends_refl].
  - rewrite handleSubmit_userProfile. destruct (ignored x).
    + split; [exact H | apply extends_refl].
    + split; [apply mergeProfile_WellFormed | now apply extends_merge].
Qed.

(** X12.  Whatever the user does after a reachable state, in any number of
    events, the profile only grows: the completeness does not go down, a
    populated field stays populated, every multi-valued field keeps its
    earlier fragments in order at the front; so once the stage is
    [generation] it stays [generation], and the banner, once shown, stays. *)
Theorem profile_only_grows (s s' : State) :
  reachable s -> steps s s' ->
  completeness (userProfile s) <= completeness (userProfile s')
  /\ (forall k, populated k (userProfile s) = true ->
                populated k (userProfile s') = true)
  /\ (forall field, In field sequenceFields ->
        exists more,
          fragments (field (userProfile s'))
          = (fragments (field (userProfile s)) ++ more)%list)
  /\ (getConversationStage (userProfile s) = generation ->
      getConversationStage (userProfile s') = generation)
  /\ (showsReady s = true -> showsReady s' = true)
  /\ reachable s'.
Proof.
  intros Hr Hs.
  assert (H : WellFormed (userProfile s')
              /\ extends (userProfile s) (userProfile s') /\ reachable s').
  { induction Hs as [s | s s' s'' _ IH Hstep].
    - split; [now apply reachable_WellFormed|].
      split; [apply extends_refl | exact Hr].
    - destruct (IH Hr) as (Hw & He & Hr').
      destruct (step_extends s' s'' Hw Hstep) as [Hw' He'].
      split; [exact Hw'|]. split; [eapply extends_trans; eassumption|].
      destruct Hstep; constructor; exact Hr'. }
  destruct H as (Hw' & (Hc & Hp & Hf) & Hr').
  split; [exact Hc|]. split; [exact Hp|]. split; [exact Hf|].
  rewrite !stage_generation_iff, !showsReady_iff.
  repeat split; try lia. exact Hr'.
Qed.

(** ** More on the classifier *)

Lemma lowerChar_idempotent (c : ascii) :
  Str.lowerChar (Str.lowerChar c) = Str.lowerChar c.
Proof.
  destruct c as [[] [] [] [] [] [] [] []]; reflexivity.
Qed.

Lemma toLowerCase_idempotent (text : string) :
  Str.toLowerCase (Str.toLowerCase text) = Str.toLowerCase text.
Proof.
  induction text as [|c r IH]; [reflexivity|].
  cbn [Str.toLowerCase]. now rewrite lowerChar_idempotent, IH.
Qed.

Lemma toLowerCase_length (text : string) :
  String.length (Str.toLowerCase text) = String.length text.
Proof. induction text as [|c r IH]; [reflexivity|]. cbn. now rewrite IH. Qed.

Lemma append_length (a b : string) :
  String.length (a ++ b) = (String.length a + String.length b)%nat.
Proof. induction a as [|c a IH]; [reflexivity|]. cbn. now rewrite IH. Qed.

Lemma Occurs_length (k s : string) :
  Str.Occurs k s -> (String.length k <= String.length s)%nat.
Proof.
  intros [pre [post ->]]. rewrite !append_length. lia.
Qed.

(** The keys of an output depend on which triggers fired, not on the
    fragment. *)
Lemma keys_of_flags (text : string) (b1 b2 b3 b4 b5 b6 b7 : bool) :
  keys
    {| Partial.major := if b1 then Some text else None;
       Partial.colleges := if b2 then Some [text] else None;
       Partial.essayPrompts := if b3 then Some [text] else None;
       Partial.extracurriculars := if b4 then Some [text] else None;
       Partial.classes := if b5 then Some [text] else None;
       Partial.hobbies := if b6 then Some [text] else None;
       Partial.awards := if b7 then Some [text] else None;
       Partial.completeness := None |}
  = map fst
      (filter snd
         [(Kmajor, b1); (Kcolleges, b2); (KessayPrompts, b3);
          (Kextracurriculars, b4); (Kclasses, b5); (Khobbies, b6);
          (Kawards, b7)]).
Proof. destruct b1, b2, b3, b4, b5, b6, b7; reflexivity. Qed.

(** The fields that a text triggers are a function of its lowercased
    form. *)
Lemma keys_by_lowercase (t1 t2 : string) :
  Str.toLowerCase t1 = Str.toLowerCase t2 ->
  keys (analyzeUserInput t1) = keys (analyzeUserInput t2).
Proof.
  intros H. unfold analyzeUserInput. cbv zeta.
  now rewrite !keys_of_flags, H.
Qed.

(** X13.  Classification does not look at the case of ASCII letters: two
    texts with the same lowercased form trigger the same fields, and a text
    triggers the fields that its lowercased form triggers. *)
Theorem classification_ignores_case :
  (forall t1 t2 : string,
     Str.toLowerCase t1 = Str.toLowerCase t2 ->
     keys (analyzeUserInput t1) = keys (analyzeUserInput t2))
  /\ (forall text : string,
        keys (analyzeUserInput (Str.toLowerCase text))
        = keys (analyzeUserInput text))
  /\ (forall text : string,
        Str.toLowerCase (Str.toLowerCase text) = Str.toLowerCase text).
Proof.
  split; [exact keys_by_lowercase|]. split; [|exact toLowerCase_idempotent].
  intros text. apply keys_by_lowercase, toLowerCase_idempotent.
Qed.

(** X14.  The keyword [honor] of the awards is part of the keyword [honors]
    of the classes: every text that mentions honors is filed under both the
    classes and the awards. *)
Theorem honors_counts_as_award (text : string) :
  Str.Occurs "honors" (Str.toLowerCase text) ->
  Partial.classes (analyzeUserInput text) = Some [text]
  /\ Partial.awards (analyzeUserInput text) = Some [text].
Proof.
  intros H.
  assert (H1 : Str.includes (Str.toLowerCase text) "honors" = true)
    by now apply includes_iff.
  assert (H2 : Str.includes (Str.toLowerCase text) "honor" = true).
  { apply includes_iff. eapply Occurs_trans; [|exact H].
    exists "", "s". reflexivity. }
  unfold analyzeUserInput. cbv zeta.
  cbn [Partial.classes Partial.awards].
  rewrite H1, H2, !orb_true_r. cbn [orb]. split; reflexivity.
Qed.

(** X15.  The shortest keywords have three characters: a text of fewer than
    three characters is classified into no field, and a turn on it leaves
    the profile of a reachable state unchanged. *)
Theorem short_text_triggers_nothing (text : string) :
  (String.length text < 3)%nat ->
  analyzeUserInput text = Partial.empty
  /\ (forall (env : Env) (s : State),
        reachable s -> input s = text ->
        userProfile (final (handleSubmit env s)) = userProfile s).
Proof.
  intros Hlen.
  assert (Hfree : keywordFree text).
  { intros kw Hin Hocc. apply Occurs_length in Hocc.
    rewrite toLowerCase_length in Hocc. cbn in Hin.
    repeat (destruct Hin as [<-|Hin]; [cbn in Hocc; lia|]). destruct Hin. }
  split; [now apply keywordFree_empty_output|].
  intros env s Hr Hin. rewrite handleSubmit_userProfile, Hin.
  destruct (ignored s); [reflexivity|].
  rewrite (keywordFree_empty_output _ Hfree).
  apply mergeProfile_empty_id, reachable_WellFormed, Hr.
Qed.

(** ** The algebra of the merge *)

(** Two classifier outputs in a row as one: the later major wins when it is
    not empty, the fragments follow one another. *)
Definition combineOutputs (e1 e2 : Partial.t) : Partial.t :=
  {| Partial.major := mergeText (Partial.major e1) (Partial.major e2);
     Partial.colleges := mergeSeq (Partial.colleges e1) (Partial.colleges e2);
     Partial.essayPrompts :=
       mergeSeq (Partial.essayPrompts e1) (Partial.essayPrompts e2);
     Partial.extracurriculars :=
       mergeSeq (Partial.extracurriculars e1) (Partial.extracurriculars e2);
     Partial.classes := mergeSeq (Partial.classes e1) (Partial.classes e2);
     Partial.hobbies := mergeSeq (Partial.hobbies e1) (Partial.hobbies e2);
     Partial.awards := mergeSeq (Partial.awards e1) (Partial.awards e2);
     Partial.completeness := None |}.

Lemma calculateCompleteness_ext (p q : UserProfile) :
  major p = major q -> colleges p = colleges q ->
  essayPrompts p = essayPrompts q ->
  extracurriculars p = extracurriculars q -> classes p = classes q ->
  hobbies p = hobbies q -> awards p = awards q ->
  calculateCompleteness p = calculateCompleteness q.
Proof.
  destruct p as [m1 c1 e1 x1 cl1 h1 a1 n1], q as [m2 c2 e2 x2 cl2 h2 a2 n2].
  cbn -[calculateCompleteness]. intros; subst; reflexivity.
Qed.

Lemma mergeText_assoc (m a b : option string) :
  mergeText (mergeText m a) b = mergeText m (mergeText a b).
Proof. destruct b as [[|? ?]|]; reflexivity. Qed.

Lemma mergeSeq_assoc (o a b : option (list string)) :
  mergeSeq (mergeSeq o a) b = mergeSeq o (mergeSeq a b).
Proof.
  destruct b as [l2|], a as [l1|], o as [l0|]; cbn;
    rewrite ?app_nil_r, ?app_assoc; reflexivity.
Qed.

Lemma mergeProfile_ext (p q : UserProfile) (e f : Partial.t) :
  mergeText (major p) (Partial.major e) = mergeText (major q) (Partial.major f) ->
  mergeSeq (colleges p) (Partial.colleges e)
  = mergeSeq (colleges q) (Partial.colleges f) ->
  mergeSeq (essayPrompts p) (Partial.essayPrompts e)
  = mergeSeq (essayPrompts q) (Partial.essayPrompts f) ->
  mergeSeq (extracurriculars p) (Partial.extracurriculars e)
  = mergeSeq (extracurriculars q) (Partial.extracurriculars f) ->
  mergeSeq (classes p) (Partial.classes e)
  = mergeSeq (classes q) (Partial.classes f) ->
  mergeSeq (hobbies p) (Partial.hobbies e)
  = mergeSeq (hobbies q) (Partial.hobbies f) ->
  mergeSeq (awards p) (Partial.awards e)
  = mergeSeq (awards q) (Partial.awards f) ->
  mergeProfile p e = mergeProfile q f.
Proof.
  intros Hm Hc He Hx Hcl Hh Ha.
  destruct (mergeProfile_fields p e) as (Pm & Pc & Pe & Px & Pcl & Ph & Pa).
  destruct (mergeProfile_fields q f) as (Qm & Qc & Qe & Qx & Qcl & Qh & Qa).
  apply profile_ext; try congruence.
  rewrite (mergeProfile_WellFormed p e), (mergeProfile_WellFormed q f).
  apply calculateCompleteness_ext; congruence.
Qed.

(** X16.  Merging two classifier outputs one after the other is merging
    their combination once: turns compose, the fragments of the first turn
    come before those of the second, and the last non-empty major wins. *)
Theorem merge_composes (p : UserProfile) (e1 e2 : Partial.t) :
  mergeProfile (mergeProfile p e1) e2 = mergeProfile p (combineOutputs e1 e2).
Proof.
  destruct (mergeProfile_fields p e1) as (Pm & Pc & Pe & Px & Pcl & Ph & Pa).
  apply mergeProfile_ext;
    cbn [combineOutputs Partial.major Partial.colleges Partial.essayPrompts
         Partial.extracurriculars Partial.classes Partial.hobbies
         Partial.awards];
    rewrite ?Pm, ?Pc, ?Pe, ?Px, ?Pcl, ?Ph, ?Pa;
    auto using mergeText_assoc, mergeSeq_assoc.
Qed.

(** X17.  Merging the same classifier output a second time, as when the
    same message is sent again, leaves the completeness and the major as
    they were and adds every fragment once more: nothing is deduplicated. *)
Theorem merge_again (p : UserProfile) (e : Partial.t) :
  let once := mergeProfile p e in
  let twice := mergeProfile once e in
  completeness twice = completeness once
  /\ major twice = major once
  /\ (forall k, populated k twice = populated k once)
  /\ fragments (colleges twice)
     = (fragments (colleges once) ++ fragments (Partial.colleges e))%list
  /\ fragments (essayPrompts twice)
     = (fragments (essayPrompts once)
        ++ fragments (Partial.essayPrompts e))%list
  /\ fragments (extracurriculars twice)
     = (fragments (extracurriculars once)
        ++ fragments (Partial.extracurriculars e))%list
  /\ fragments (classes twice)
     = (fragments (classes once) ++ fragments (Partial.classes e))%list
  /\ fragments (hobbies twice)
     = (fragments (hobbies once) ++ fragments (Partial.hobbies e))%list
  /\ fragments (awards twice)
     = (fragments (awards once) ++ fragments (Partial.awards e))%list.
Proof.
  intros once twice.
  destruct (mergeProfile_fields p e) as (Pm & Pc & Pe & Px & Pcl & Ph & Pa).
  destruct (mergeProfile_fields once e) as (Qm & Qc & Qe & Qx & Qcl & Qh & Qa).
  fold once in Pm, Pc, Pe, Px, Pcl, Ph, Pa. fold twice in Qm, Qc, Qe, Qx, Qcl, Qh, Qa.
  assert (Hm : major twice = major once).
  { rewrite Qm, Pm. destruct (Partial.major e) as [[|? ?]|]; reflexivity. }
  assert (Hseq : forall o n : option (list string),
             populatedSeq (mergeSeq (mergeSeq o n) n)
             = populatedSeq (mergeSeq o n)).
  { intros [[|? ?]|] [[|? ?]|]; reflexivity. }
  assert (Hpop : forall k, populated k twice = populated k once).
  { intros k. destruct k; cbn [populated];
      rewrite ?Hm, ?Qc, ?Qe, ?Qx, ?Qcl, ?Qh, ?Qa, ?Pc, ?Pe, ?Px, ?Pcl, ?Ph, ?Pa,
        ?Hseq; reflexivity. }
  split.
  { unfold twice at 1. rewrite (mergeProfile_WellFormed once e).
    unfold once at 2. rewrite (mergeProfile_WellFormed p e).
    fold once twice. rewrite !calculateCompleteness_percent. do 2 f_equal.
    apply filter_ext. intros k. now rewrite !isCompleted_populated. }
  split; [exact Hm|]. split; [exact Hpop|].
  rewrite Qc, Qe, Qx, Qcl, Qh, Qa, !mergeSeq_fragments. repeat split.
Qed.

(** ** The attachment context and the attachment list *)

Lemma removeAt_map {A B : Type} (f : A -> B) (i : nat) (l : list A) :
  removeAt i (map f l) = map f (removeAt i l).
Proof.
  revert i. induction l as [|x l IH]; intros [|i]; try reflexivity.
  cbn [map removeAt]. now rewrite IH.
Qed.

Lemma blockOf_nonempty (env : Env) (file : File) : blockOf env file <> "".
Proof. unfold blockOf. destruct (extractFromBlob env file); discriminate. Qed.

(** X18.  The attachment context follows the attachment list: it is empty
    exactly when no file is attached; the context of two selections made
    one after the other is the context of the first followed by the context
    of the second; detaching a file removes its block and keeps the other
    blocks in order. *)
Theorem attachment_context_follows_list (env : Env) :
  (forall files : list File,
     resolveAttachments env files = "" <-> files = [])
  /\ (forall a b : list File,
        resolveAttachments env (a ++ b)
        = resolveAttachments env a ++ resolveAttachments env b)
  /\ (forall (s : State) (a b : list File),
        resolveAttachments env
          (attachedFiles (handleFileAttach b (handleFileAttach a s)))
        = resolveAttachments env (attachedFiles s)
          ++ resolveAttachments env a ++ resolveAttachments env b)
  /\ (forall (s : State) (index : nat),
        resolveAttachments env (attachedFiles (removeAttachment index s))
        = Str.cat (removeAt index (map (blockOf env) (attachedFiles s)))).
Proof.
  assert (Happ : forall a b : list File,
             resolveAttachments env (a ++ b)
             = resolveAttachments env a ++ resolveAttachments env b).
  { intros a b. now rewrite !resolveAttachments_blocks, map_app, cat_app. }
  assert (Hatt : forall fs st,
             attachedFiles (handleFileAttach fs st)
             = (attachedFiles st ++ fs)%list).
  { intros fs st. destruct fs; cbn; [now rewrite app_nil_r | reflexivity]. }
  split.
  { intros files. split; [|now intros ->].
    rewrite resolveAttachments_blocks. destruct files as [|f files];
      [reflexivity|].
    cbn [map]. rewrite cat_cons. intros E. exfalso.
    destruct (blockOf env f) eqn:B; [now apply blockOf_nonempty in B|].
    discriminate E. }
  split; [exact Happ|]. split.
  - intros s a b. now rewrite !Hatt, !Happ, append_assoc.
  - intros s index. unfold removeAttachment.
    cbn [attachedFiles setAttachedFiles].
    now rewrite resolveAttachments_blocks, removeAt_map.
Qed.

(** ** The application shell *)

(** The cells of [App] after the authentication service has reported
    [events], in order. *)
Definition afterEvents (events : list App.AuthState) : App.State :=
  fold_left (fun st e => App.onAuthStateChanged e st) events App.initial.

Lemma afterEvents_last (earlier : list App.AuthState) (e : App.AuthState) :
  afterEvents (earlier ++ [e])
  = {| App.currentUser := App.user e; App.loading := App.isLoading e |}.
Proof. unfold afterEvents. now rewrite fold_left_app. Qed.

(** X19.  Before the authentication service reports anything the shell
    shows the loading screen.  Afterwards only the latest report counts: the
    chat is shown for a user exactly when the latest report carries that
    user and is not loading, and the sign-in screen exactly when it carries
    no user and is not loading. *)
Theorem chat_requires_signed_in_user (events : list App.AuthState) :
  (events = [] -> App.render (afterEvents events) = App.LoadingScreen)
  /\ (forall u : App.User,
        App.render (afterEvents events) = App.ChatScreen u
        <-> exists earlier e,
              events = (earlier ++ [e])%list
              /\ App.user e = Some u /\ App.isLoading e = false)
  /\ (App.render (afterEvents events) = App.SignInScreen
      <-> exists earlier e,
            events = (earlier ++ [e])%list
            /\ App.user e = None /\ App.isLoading e = false).
Proof.
  split; [now intros ->|].
  induction events as [|e0 rest _] using rev_ind.
  - split; [intros u|]; (split; [discriminate|]);
      intros (earlier & e & E & _); now destruct earlier.
  - rewrite afterEvents_last. unfold App.render.
    cbn [App.loading App.currentUser].
    split; [intros u|]; split.
    + intros H. exists rest, e0; split; [reflexivity|].
      destruct (App.isLoading e0); [discriminate|].
      destruct (App.user e0); [|discriminate]. now inversion H.
    + intros (earlier & e & E & Hu & Hl).
      apply app_inj_tail in E. destruct E as [_ ->]. now rewrite Hl, Hu.
    + intros H. exists rest, e0; split; [reflexivity|].
      destruct (App.isLoading e0); [discriminate|].
      destruct (App.user e0); [discriminate|]. now split.
    + intros (earlier & e & E & Hu & Hl).
      apply app_inj_tail in E. destruct E as [_ ->]. now rewrite Hl, Hu.
Qed.

(** ** Which prompt is sent, and a second submission *)

Lemma isBlank_empty : Str.isBlank "" = true.
Proof. reflexivity. Qed.

Lemma collection_not_refinement (ctx i a ctx' i' a' : string) :
  collectionPrompt ctx i a <> refinementPrompt ctx' i' a'.
Proof.
  unfold collectionPrompt, refinementPrompt.
  cbn [Str.cat String.concat String.append]. discriminate.
Qed.

Lemma generation_not_refinement (p : UserProfile)
    (ctx i a ctx' i' a' : string) :
  generationPrompt p ctx i a <> refinementPrompt ctx' i' a'.
Proof.
  unfold generationPrompt, refinementPrompt.
  cbn [Str.cat String.concat String.append]. discriminate.
Qed.

(** X20.  The prompt of a turn is the collection prompt when the
    completeness stored by the turn is below 60 and the generation prompt
    otherwise; the stage selected is never [refinement] and the refinement
    prompt is never sent, whatever profile, message and attachments. *)
Theorem refinement_prompt_never_sent (env : Env) (s : State) (prompt : string) :
  sent (handleSubmit env s) = Some prompt ->
  let p := updatedProfileOf s in
  let context := profileContext p (getConversationStage p) in
  let attachmentContext := resolveAttachments env (attachedFiles s) in
  (completeness p < 60 ->
   selected (handleSubmit env s) = Some collection
   /\ prompt = collectionPrompt context (input s) attachmentContext)
  /\ (60 <= completeness p ->
      selected (handleSubmit env s) = Some generation
      /\ prompt = generationPrompt p context (input s) attachmentContext)
  /\ selected (handleSubmit env s) <> Some refinement
  /\ (forall c i a : string, prompt <> refinementPrompt c i a).
Proof.
  intros Hsent p context attachmentContext.
  subst context attachmentContext p.
  destruct (ignored s) eqn:Hi.
  { rewrite (handleSubmit_ignored env s Hi) in Hsent. discriminate Hsent. }
  rewrite (handleSubmit_processed env s Hi) in Hsent |- *.
  cbn [sent selected] in Hsent |- *.
  injection Hsent as E. subst prompt. unfold turnPrompt, systemPrompt.
  destruct (getConversationStage (updatedProfileOf s)) eqn:Hst.
  - apply stage_collection_iff in Hst.
    split; [intros _; split; reflexivity|]. split; [intros; lia|].
    split; [discriminate | intros c i a; apply collection_not_refinement].
  - apply stage_generation_iff in Hst.
    split; [intros; lia|]. split; [intros _; split; reflexivity|].
    split; [discriminate | intros c i a; apply generation_not_refinement].
  - exfalso. destruct (Z_lt_ge_dec (completeness (updatedProfileOf s)) 60)
      as [Hlt|Hge].
    + apply stage_collection_iff in Hlt. congruence.
    + assert (G : completeness (updatedProfileOf s) >= 60) by lia.
      apply stage_generation_iff in G. congruence.
Qed.

(** X21.  A turn uses up what was typed and attached: submitting again
    right after a submission, with nothing new typed or attached, changes
    nothing and sends nothing. *)
Theorem second_submission_does_nothing (env1 env2 : Env) (s : State) :
  let s1 := final (handleSubmit env1 s) in
  ignored s1 = true
  /\ final (handleSubmit env2 s1) = s1
  /\ sent (handleSubmit env2 s1) = None.
Proof.
  intros s1.
  assert (H : ignored s1 = true).
  { unfold s1. destruct (ignored s) eqn:Hi.
    - now rewrite (handleSubmit_ignored env1 s Hi).
    - destruct (final_sameCells env1 s Hi) as (H1 & _ & H3 & _).
      unfold ignored. rewrite H1, H3.
      now destruct (rejected (turnStream env1 s)). }
  split; [exact H|]. now rewrite (handleSubmit_ignored env2 s1 H).
Qed.

(** ** The component with and without the profile *)

(** The cells the two variants share. *)
Definition forget (s : State) : Plain.State :=
  {| Plain.messages := messages s; Plain.input := input s;
     Plain.isLoading := isLoading s; Plain.attachedFiles := attachedFiles s;
     Plain.toasts := toasts s |}.

(** The environment in which the generation service answers [stream] to
    any prompt. *)
Definition replaying (env : Env) (stream : Stream) : Env :=
  {| userClock := userClock env; assistantClock := assistantClock env;
     extractFromBlob := extractFromBlob env;
     streamText := fun _ => stream |}.

Lemma forget_scan (aid : string) (l : list string) :
  forall (r : string) (s : State),
    map forget (map snd (scan (onChunk aid) (r, s) l))
    = map snd (scan (Plain.onChunk aid) (r, forget s) l).
Proof.
  induction l as [|x l IH]; intros r s; [reflexivity|].
  cbn [scan map]. f_equal. apply (IH (Str.cat [r; x])).
Qed.

Lemma forget_fold (aid : string) (l : list string) :
  forall (r : string) (s : State),
    forget (snd (fold_left (onChunk aid) l (r, s)))
    = snd (fold_left (Plain.onChunk aid) l (r, forget s)).
Proof.
  induction l as [|x l IH]; intros r s; [reflexivity|].
  cbn [fold_left]. apply (IH (Str.cat [r; x])).
Qed.

(** X22.  The variant of the component that keeps a profile and the one
    that does not show the same conversation: from states with the same
    messages, text, attachments and notifications, and for the same reply of
    the generation service, a submission publishes the same states and ends
    in the same state, up to the profile; attaching and detaching files do
    the same in both.  Only the prompt differs: the plain variant sends the
    message and the attachment context first, followed by fixed
    instructions that name the e-mail of the user. *)
Theorem profile_engine_keeps_conversation
    (user : App.User) (env : Env) (s : State) :
  let t := handleSubmit env s in
  let t' :=
    Plain.handleSubmit user (replaying env (turnStream env s)) (forget s) in
  forget (final t) = Plain.final t'
  /\ map forget (published t) = Plain.published t'
  /\ option_map forget (opened t) = Plain.opened t'
  /\ (forall files : list File,
        forget (handleFileAttach files s)
        = Plain.handleFileAttach files (forget s))
  /\ (forall index : nat,
        forget (removeAttachment index s)
        = Plain.removeAttachment index (forget s))
  /\ (forall mounted : Z,
        forget (initialState mounted) = Plain.initialState mounted)
  /\ (forall prompt : string,
        Plain.sent t' = Some prompt ->
        exists rest,
          prompt
          = input s ++ resolveAttachments env (attachedFiles s) ++ rest
          /\ Str.Occurs (App.email user) rest).
Proof.
  intros t t'.
  assert (Hattach : forall files,
             forget (handleFileAttach files s)
             = Plain.handleFileAttach files (forget s)).
  { intros files. unfold handleFileAttach, Plain.handleFileAttach.
    destruct (0 <? List.length files)%nat; reflexivity. }
  assert (Hturn : forget (final t) = Plain.final t'
                  /\ map forget (published t) = Plain.published t'
                  /\ option_map forget (opened t) = Plain.opened t').
  { unfold t, t'. destruct (ignored s) eqn:Hi.
    - rewrite (handleSubmit_ignored env s Hi). unfold Plain.handleSubmit.
      unfold ignored in Hi. cbn [forget Plain.input Plain.attachedFiles].
      rewrite Hi. repeat split.
    - rewrite (handleSubmit_processed env s Hi). unfold Plain.handleSubmit.
      unfold ignored in Hi. cbn [forget Plain.input Plain.attachedFiles].
      rewrite Hi.
      cbv beta zeta iota delta
        [replaying streamText userClock assistantClock final published
         opened Plain.final Plain.published Plain.opened id].
      fold (assistantId env).
      rewrite !scan_last_fold.
      split; [|split; [apply forget_scan | reflexivity]].
      match goal with
      | |- context [fold_left (Plain.onChunk ?a) ?l (?r, ?p)] =>
          change p with (forget (openedState env s))
      end.
      rewrite <- (forget_fold (assistantId env)).
      destruct (rejected (turnStream env s)); reflexivity. }
  destruct Hturn as (H1 & H2 & H3).
  split; [exact H1|]. split; [exact H2|]. split; [exact H3|].
  split; [exact Hattach|]. split; [reflexivity|]. split; [reflexivity|].
  intros prompt. unfold t', Plain.handleSubmit.
  destruct (Str.isBlank _ && _); [discriminate|].
  cbn [Plain.sent]. intros E. injection E as <-.
  unfold Plain.fullPrompt. eexists. split.
  - cbn [forget Plain.input Plain.attachedFiles replaying extractFromBlob].
    rewrite !cat_cons. reflexivity.
  - apply Occurs_append_r, Occurs_append_l, Occurs_refl.
Qed.

(** ** The further properties at concrete inputs *)

(** A clock that reads 0, so that the assistant message gets the id of the
    welcome message, and a reply in one chunk. *)
Definition collidingEnv : Env :=
  {| userClock := 0; assistantClock := 0;
     extractFromBlob := fun _ => None;
     streamText := fun _ => {| chunks := ["Hi"]; rejected := false |} |}.

(** A message that triggers five fields, and the state after it is sent. *)
Definition fiveFieldsText : string :=
  "My major, my college essay, my club and my class".

Definition readyState : State :=
  final (handleSubmit sampleEnv (setInput fiveFieldsText (initialState 0))).

(** A signed-in user. *)
Definition sampleUser : App.User :=
  {| App.id := "u1"; App.email := "ada@example.org";
     App.displayName := None |}.

Lemma readyState_reachable : reachable readyState.
Proof. apply reach_submit, reach_type, reach_mount. Qed.

(** Detaching the second of three files, and detaching past the end. *)
Lemma removeAttachment_drops_one_witness :
  map name (attachedFiles (removeAttachment 1 typedWithFiles))
  = ["a.txt"; "c.txt"]
  /\ removeAttachment 5 typedWithFiles = typedWithFiles.
Proof.
  destruct (removeAttachment_drops_one 1 typedWithFiles) as (_ & H & _).
  destruct (removeAttachment_drops_one 5 typedWithFiles) as (_ & _ & G & _).
  split.
  - cbv zeta in H. rewrite H. reflexivity.
  - apply G. cbn. lia.
Defined.

(** With a message typed the button is enabled and a prompt is sent. *)
Lemma handleSubmit_noop_iff_witness :
  sent (handleSubmit sampleEnv typed) = Some (turnPrompt sampleEnv typed).
Proof.
  apply (handleSubmit_noop_iff sampleEnv typed). reflexivity.
Defined.




(** With the clock at 0 the reply also replaces the welcome message. *)
Lemma same_id_is_overwritten_witness :
  contentAt 0 (final (handleSubmit collidingEnv typed)) = Some "Hi".
Proof.
  rewrite (same_id_is_overwritten collidingEnv typed 0
             {| id := "1"; role := assistant; content := welcome;
                timestamp := 0; attachments := None |}).
  - reflexivity.
  - reflexivity.
  - reflexivity.
  - reflexivity.
  - cbn. discriminate.
Defined.


(** Five populated fields: the stage is [generation]. *)
Lemma stage_by_populated_fields_witness :
  getConversationStage (userProfile readyState) = generation.
Proof.
  destruct (stage_by_populated_fields (userProfile readyState)) as (H & _).
  - reflexivity.
  - apply H. vm_compute. intros G. discriminate G.
Defined.

(** Five check marks: the banner shows. *)
Lemma progress_block_consistent_witness : showsReady readyState = true.
Proof.
  destruct (progress_block_consistent readyState readyState_reachable)
    as (_ & H & _).
  apply H. vm_compute. intros G. discriminate G.
Defined.

(** From the attached files to the greeting: the completeness has not gone
    down. *)
Lemma profile_only_grows_witness :
  completeness (userProfile typedWithFiles)
  <= completeness (userProfile greeted).
Proof.
  apply (profile_only_grows typedWithFiles greeted typedWithFiles_reachable).
  eapply steps_more; [eapply steps_more; [apply steps_none|]|].
  - apply (step_submit typedWithFiles sampleEnv).
  - apply step_type.
Defined.

(** Capitals make no difference. *)
Lemma classification_ignores_case_witness :
  keys (analyzeUserInput "I LOVE my Club")
  = keys (analyzeUserInput "i love MY club").
Proof.
  destruct classification_ignores_case as (H & _).
  apply (H "I LOVE my Club" "i love MY club"). vm_compute. reflexivity.
Defined.

(** An honors class is filed as an award too. *)
Lemma honors_counts_as_award_witness :
  Partial.awards (analyzeUserInput "I take Honors Chemistry")
  = Some ["I take Honors Chemistry"].
Proof.
  apply (honors_counts_as_award "I take Honors Chemistry").
  apply includes_iff. vm_compute. reflexivity.
Defined.

(** Two letters trigger nothing. *)
Lemma short_text_triggers_nothing_witness :
  analyzeUserInput "ap" = Partial.empty.
Proof.
  apply (short_text_triggers_nothing "ap"). cbn. lia.
Defined.

(** No report yet: the loading screen; a report with a user: the chat. *)
Lemma chat_requires_signed_in_user_witness :
  App.render (afterEvents []) = App.LoadingScreen
  /\ App.render
       (afterEvents
          [ {| App.user := None; App.isLoading := true |};
            {| App.user := Some sampleUser; App.isLoading := false |} ])
     = App.ChatScreen sampleUser.
Proof.
  split.
  - apply (chat_requires_signed_in_user []). reflexivity.
  - apply (chat_requires_signed_in_user
             [ {| App.user := None; App.isLoading := true |};
               {| App.user := Some sampleUser; App.isLoading := false |} ]).
    exists [ {| App.user := None; App.isLoading := true |} ],
      {| App.user := Some sampleUser; App.isLoading := false |}.
    repeat split.
Defined.

(** Two of seven fields: the collection prompt. *)
Lemma refinement_prompt_never_sent_witness :
  selected (handleSubmit sampleEnv typed) = Some collection.
Proof.
  destruct (refinement_prompt_never_sent sampleEnv typed
              (turnPrompt sampleEnv typed)) as (H & _).
  - vm_compute. reflexivity.
  - apply H. vm_compute. reflexivity.
Defined.

(** The prompt of the plain variant starts with the message. *)
Lemma profile_engine_keeps_conversation_witness :
  exists rest,
    Plain.fullPrompt sampleUser (input typed) ""
    = input typed ++ resolveAttachments sampleEnv (attachedFiles typed)
      ++ rest
    /\ Str.Occurs (App.email sampleUser) rest.
Proof.
  apply (profile_engine_keeps_conversation sampleUser sampleEnv typed).
  vm_compute. reflexivity.
Defined.
